(** * squid: the slurm queue model ([squid/slurm.py], [squid/app.py])

    A shallow embedding of [SlurmQueue] (the queue read by [squeue], its
    line parser, the attribute/regex filter and the hold/release/kill
    commands) and of the part of [SquidApp] that owns the filter settings.

    Conventions.
    - A Python [str] is a [string]; a character is a code point below 256
      (Latin-1), so that [str.split], [str.isdigit] and truthiness are the
      Python ones on that range.
    - Python exceptions are values of [exn]; a statement that may raise
      returns [exn + A].  Mutations made before a raise stay in the state.
    - The operating system ([os.getlogin], [subprocess]), the [re] module
      and the attributes every Python object carries besides its dataclass
      fields are interfaces (type classes) the code is parametric in. *)

From Stdlib Require Import List String Ascii Bool Arith NArith Lia.
Import ListNotations.

Local Open Scope string_scope.
Local Open Scope list_scope.

(** ** Python strings *)

Module PyStr.

(** [bool(s)] of a [str]: non-empty. *)
Definition truthy (s : string) : bool :=
  match s with
  | EmptyString => false
  | String _ _ => true
  end.

(** [c.isspace()] for a code point below 256. *)
Definition isspace_char (c : ascii) : bool :=
  let n := N_of_ascii c in
  ((9 <=? n) && (n <=? 13) || (28 <=? n) && (n <=? 32)
   || (n =? 133) || (n =? 160))%N.

(** [c.isdigit()] for a code point below 256: the decimal digits and the
    superscripts two, three and one. *)
Definition isdigit_char (c : ascii) : bool :=
  let n := N_of_ascii c in
  ((48 <=? n) && (n <=? 57) || (n =? 178) || (n =? 179) || (n =? 185))%N.

Fixpoint forall_chars (p : ascii -> bool) (s : string) : bool :=
  match s with
  | EmptyString => true
  | String c s' => p c && forall_chars p s'
  end.

Fixpoint exists_char (p : ascii -> bool) (s : string) : bool :=
  match s with
  | EmptyString => false
  | String c s' => p c || exists_char p s'
  end.

(** [s.isdigit()]: at least one character, all of them digits. *)
Definition isdigit (s : string) : bool :=
  truthy s && forall_chars isdigit_char s.

(** [s.split()]: the maximal runs of non-whitespace characters.
    [cur] is the run being read. *)
Fixpoint split_from (cur : string) (s : string) : list string :=
  match s with
  | EmptyString => if truthy cur then [cur] else []
  | String c s' =>
      if isspace_char c
      then (if truthy cur then cur :: split_from "" s' else split_from "" s')
      else split_from (cur ++ String c "") s'
  end.

Definition split (s : string) : list string := split_from "" s.

(** [s.split(sep)] for a one-character separator: the pieces between the
    separators, empty pieces included; never the empty list. *)
Fixpoint split_on_from (sep : ascii) (cur : string) (s : string)
  : list string :=
  match s with
  | EmptyString => [cur]
  | String c s' =>
      if Ascii.eqb c sep
      then cur :: split_on_from sep "" s'
      else split_on_from sep (cur ++ String c "") s'
  end.

Definition split_on (sep : ascii) (s : string) : list string :=
  split_on_from sep "" s.

(** The line feed, ["\n"]. *)
Definition LF : ascii := "010"%char.

Fixpoint drop (n : nat) (s : string) : string :=
  match n, s with
  | O, _ => s
  | S _, EmptyString => EmptyString
  | S n', String _ s' => drop n' s'
  end.

(** [needle in hay]. *)
Fixpoint contains (needle hay : string) : bool :=
  String.prefix needle hay
  || match hay with
     | EmptyString => false
     | String _ hay' => contains needle hay'
     end.

(** The decimal value of a string of ASCII digits. *)
Fixpoint decimal_value_from (acc : N) (s : string) : N :=
  match s with
  | EmptyString => acc
  | String c s' =>
      decimal_value_from (10 * acc + (N_of_ascii c - 48))%N s'
  end.

Definition is_decimal_char (c : ascii) : bool :=
  let n := N_of_ascii c in ((48 <=? n) && (n <=? 57))%N.

(** A positive-integer string: a non-empty string of the digits 0-9 whose
    value is not zero. *)
Definition is_positive_integer (s : string) : bool :=
  truthy s && forall_chars is_decimal_char s
  && (0 <? decimal_value_from 0 s)%N.

End PyStr.

(** ** Exceptions and Python values *)

Inductive exn : Type :=
| SlurmQueueReadError (msg : string)   (* squid._errors *)
| AttributeError                       (* getattr on a missing attribute *)
| TypeError                            (* re.search on a non-string *)
| ReError                              (* re.error: the pattern does not compile *)
| OSError                              (* os.getlogin or a spawn failed *)
| CalledProcessError                   (* squeue exited with a non-zero status *)
| UnicodeDecodeError                   (* the output of squeue is not UTF-8 *)
| BdbQuit                              (* bdb.BdbQuit: the debugger was quit *)
| OverflowError                        (* re: a repeat count is too large *)
| RecursionError.                      (* re: the pattern is nested too deep *)

(** What [getattr] can hand back: a string, or another object of which only
    the truth value matters here (a bound method, [None], a dict, ...). *)
Inductive PyVal : Type :=
| PyStr (s : string)
| PyObj (truth : bool).

Definition argv : Type := list string.

(** ** Interfaces of the environment *)

(** The operating system.  The second argument of [check_output] and [run]
    is the list of the commands spawned so far, so that the system may
    answer successive calls differently.
    - [check_output a h] is [subprocess.check_output(a).decode("utf-8")];
    - [run a h] is [subprocess.run(a)], [None] when it returns
      (its exit status is not inspected), [Some e] when it raises;
    - [breakpointhook] is what a call of [sys.breakpointhook()] does:
      [None] when it returns (the debugger is resumed, or breakpoints are
      switched off with [PYTHONBREAKPOINT=0]), [Some e] when it raises
      ([bdb.BdbQuit] when the debugger is quit or its input is at its
      end).  The debugger session is taken not to change the variables of
      the program. *)
Class Host : Type := {
  os_getlogin : exn + string;
  check_output : argv -> list argv -> exn + string;
  run : argv -> list argv -> option exn;
  breakpointhook : option exn
}.

(** The [re] module.  [re_compiles p] tells whether [p] can be compiled;
    [re_match_at p s i] whether the compiled pattern matches in [s]
    starting at position [i] (as [re.compile(p).match(s, i)]);
    [re_compile_exn p] is the exception the compilation of [p] raises when
    [p] cannot be compiled: [re.error] for a pattern that is not well
    formed, but also [OverflowError] or [RecursionError] for some. *)
Class Regex : Type := {
  re_compiles : string -> bool;
  re_match_at : string -> string -> nat -> bool;
  re_compile_exn : string -> exn
}.

(** The attributes a [SlurmJob] instance has besides its eleven fields:
    what its class, [dataclass] and [object] provide ([__doc__],
    [__str__], [__hash__], ...).  [None] for a name that is no attribute. *)
Class ObjectModel : Type := {
  class_attr : string -> option PyVal
}.

(** ** The data model *)

(** [NAMES_TO_JOB_ATTRIBUTES], in the order of the dict literal. *)
Definition NAMES_TO_JOB_ATTRIBUTES : list (string * string) :=
  [ ("Name", "name");
    ("Partition", "partition");
    ("State", "state");
    ("Time", "time_used");
    ("Node/Reason", "node_list");
    ("Submit Time", "submit_time");
    ("Start Time", "start_time");
    ("Job ID", "job_id");
    ("Max End Time", "end_time");
    ("Array Job Id", "array_job_id");
    ("Array Task Id", "array_task_id") ].

(** The dataclass [SlurmJob]: eleven [str] fields, in declaration order. *)
Record SlurmJob : Type := mkSlurmJob {
  job_id : string;
  name : string;
  partition : string;
  time_used : string;
  submit_time : string;
  start_time : string;
  end_time : string;
  state : string;
  array_job_id : string;
  array_task_id : string;
  node_list : string
}.

(** [SlurmJob( *args )]: the generated [__init__] takes exactly eleven
    positional arguments. *)
Definition SlurmJob_of_args (args : list string) : exn + SlurmJob :=
  match args with
  | [a0; a1; a2; a3; a4; a5; a6; a7; a8; a9; a10] =>
      inr (mkSlurmJob a0 a1 a2 a3 a4 a5 a6 a7 a8 a9 a10)
  | _ => inl TypeError
  end.

(** The instance dictionary of a job: field name to value. *)
Definition instance_dict (job : SlurmJob) : list (string * string) :=
  [ ("job_id", job_id job);
    ("name", name job);
    ("partition", partition job);
    ("time_used", time_used job);
    ("submit_time", submit_time job);
    ("start_time", start_time job);
    ("end_time", end_time job);
    ("state", state job);
    ("array_job_id", array_job_id job);
    ("array_task_id", array_task_id job);
    ("node_list", node_list job) ].

(** The enumerated field names. *)
Definition field_names : list string :=
  [ "job_id"; "name"; "partition"; "time_used"; "submit_time";
    "start_time"; "end_time"; "state"; "array_job_id"; "array_task_id";
    "node_list" ].

Definition is_field (attribute : string) : bool :=
  existsb (String.eqb attribute) field_names.

Fixpoint dict_get (key : string) (d : list (string * string))
  : option string :=
  match d with
  | [] => None
  | (k, v) :: d' => if String.eqb key k then Some v else dict_get key d'
  end.

(** The banner job of [app.py]. *)
Definition slurm_banner_fake_job : SlurmJob :=
  {| job_id := "Job ID";
     name := "Name";
     partition := "Partition";
     time_used := "Time";
     submit_time := "Submit Time";
     start_time := "Start Time";
     end_time := "End Time";
     state := "State";
     node_list := "Node/Reason";
     array_job_id := "Ar.J.Id";
     array_task_id := "Ar.T.Id" |}.

(** ** State and the monad of statements *)

(** [jobs] is the attribute [self.jobs] of the one [SlurmQueue] object;
    [trace] lists the external commands spawned so far, oldest first. *)
Record World : Type := mkWorld {
  jobs : list SlurmJob;
  trace : list argv
}.

Definition M (A : Type) : Type := World -> (exn + A) * World.

Definition ret {A} (a : A) : M A := fun w => (inr a, w).

Definition raise {A} (e : exn) : M A := fun w => (inl e, w).

Definition bind {A B} (c : M A) (k : A -> M B) : M B :=
  fun w =>
    match c w with
    | (inl e, w') => (inl e, w')
    | (inr a, w') => k a w'
    end.

Notation "x <- c ;; k" := (bind c (fun x => k))
  (at level 61, c at next level, right associativity).
Notation "c ;; k" := (bind c (fun _ => k))
  (at level 61, right associativity).

(** An expression that may raise, used as a statement. *)
Definition lift {A} (r : exn + A) : M A :=
  match r with
  | inl e => raise e
  | inr a => ret a
  end.

Definition get_jobs : M (list SlurmJob) := fun w => (inr (jobs w), w).

Definition set_jobs (js : list SlurmJob) : M unit :=
  fun w => (inr tt, {| jobs := js; trace := trace w |}).

(** [self.jobs.append(job)] *)
Definition append_job (job : SlurmJob) : M unit :=
  fun w => (inr tt, {| jobs := jobs w ++ [job]; trace := trace w |}).

(** [for x in l: body(x)] *)
Fixpoint for_each {A} (body : A -> M unit) (l : list A) : M unit :=
  match l with
  | [] => ret tt
  | x :: l' => body x ;; for_each body l'
  end.

(** [breakpoint()]: the call of [sys.breakpointhook()].  Control goes to
    the debugger; the call returns when the debugger is resumed, and raises
    when it is quit. *)
Definition breakpoint {host : Host} : M unit :=
  match breakpointhook with
  | Some e => raise e
  | None => ret tt
  end.

(** ** [SlurmQueue] *)

Section SlurmQueue.

Context {host : Host} {regex_engine : Regex} {object_model : ObjectModel}.

(** [os.getlogin()] *)
Definition getlogin : M string := lift os_getlogin.

(** [subprocess.check_output(a).decode("utf-8")]: the command is spawned
    (and recorded), then its decoded output or an exception comes back. *)
Definition subprocess_check_output (a : argv) : M string :=
  fun w =>
    (check_output a (trace w),
     {| jobs := jobs w; trace := trace w ++ [a] |}).

(** [subprocess.run(a)] *)
Definition subprocess_run (a : argv) : M unit :=
  fun w =>
    (match run a (trace w) with
     | Some e => inl e
     | None => inr tt
     end,
     {| jobs := jobs w; trace := trace w ++ [a] |}).

(** The command line of the queue query. *)
Definition squeue_argv (user : string) : argv :=
  [ "squeue"; "-u"; user; "--noheader"; "--array"; "--Format";
    "JobID:1000,Name:1000,Partition:1000,TimeUsed:1000,SubmitTime:1000,StartTime:1000,EndTime:1000,State:1000,ArrayJobID:1000,ArrayTaskID:1000,NodeList:1000,Reason:1000" ].

(** The text put in place of a reason of several words. *)
Definition nodes_not_available : string := "Nodes N. Avail.".

Definition read_error_message : string :=
  "Error reading slurm queue. Please check your for any irregularities in squeue output.".

(** [l.pop(i)] for an index within the list: the list without item [i]. *)
Definition list_pop {A} (i : nat) (l : list A) : list A :=
  firstn i l ++ skipn (S i) l.

(** The two repairs of the token list of a line, in the order of the
    source: twelve tokens lose the last one; then more than twelve are cut
    to ten and get the fixed text as the eleventh. *)
Definition drop_reason (job_info : list string) : list string :=
  if (List.length job_info =? 12)%nat then list_pop 11 job_info else job_info.

Definition cut_long_reason (job_info : list string) : list string :=
  if (12 <? List.length job_info)%nat
  then firstn 10 job_info ++ [nodes_not_available]
  else job_info.

(** The body of the loop over the lines of the output of [squeue]. *)
Definition update_line (line : string) : M unit :=
  if PyStr.truthy line then
    let job_info := PyStr.split line in
    let job_info := drop_reason job_info in
    let job_info := cut_long_reason job_info in
    if negb (List.length job_info =? 11)%nat then
      breakpoint ;;
      raise (SlurmQueueReadError read_error_message)
    else
      job <- lift (SlurmJob_of_args job_info) ;;
      append_job job
  else ret tt.

(** [getattr(job, attribute)]: the instance dictionary, then the class. *)
Definition getattr (job : SlurmJob) (attribute : string) : exn + PyVal :=
  match dict_get attribute (instance_dict job) with
  | Some s => inr (PyStr s)
  | None =>
      match class_attr attribute with
      | Some v => inr v
      | None => inl AttributeError
      end
  end.

(** The truth value of a Python value. *)
Definition truth_of (v : PyVal) : bool :=
  match v with
  | PyStr s => PyStr.truthy s
  | PyObj t => t
  end.

(** [re.search(regex, v)], as a truth value: the pattern is compiled, then
    the positions [0 .. len(s)] are tried from the left.  A pattern that
    cannot be compiled raises the exception of the compilation. *)
Definition re_search (regex : string) (v : PyVal) : exn + bool :=
  if re_compiles regex then
    match v with
    | PyStr s =>
        inr (existsb (re_match_at regex s) (seq 0 (S (String.length s))))
    | PyObj _ => inl TypeError
    end
  else inl (re_compile_exn regex).

(** The loop of [filter_jobs]; [filtered_jobs] is the list built so far. *)
Fixpoint filter_loop (attribute regex : string)
         (jobs : list SlurmJob) (filtered_jobs : list SlurmJob)
  : exn + list SlurmJob :=
  match jobs with
  | [] => inr filtered_jobs
  | job :: rest =>
      match getattr job attribute with
      | inl e => inl e
      | inr attr =>
          if truth_of attr then
            match re_search regex attr with
            | inl e => inl e
            | inr true =>
                filter_loop attribute regex rest (filtered_jobs ++ [job])
            | inr false =>
                filter_loop attribute regex rest filtered_jobs
            end
          else filter_loop attribute regex rest filtered_jobs
      end
  end.

Definition filter_jobs (jobs : list SlurmJob) (attribute regex : string)
  : exn + list SlurmJob :=
  if negb (PyStr.truthy attribute) || negb (PyStr.truthy regex)
  then inr jobs
  else filter_loop attribute regex jobs [].

Definition update (job_filter_attribute job_filter_regex : string)
  : M unit :=
  set_jobs [] ;;
  user <- getlogin ;;
  queue_info <- subprocess_check_output (squeue_argv user) ;;
  for_each update_line (PyStr.split_on PyStr.LF queue_info) ;;
  js <- get_jobs ;;
  filtered <- lift (filter_jobs js job_filter_attribute job_filter_regex) ;;
  set_jobs filtered.

(** [SlurmQueue.__init__] *)
Definition SlurmQueue_init : M unit :=
  set_jobs [] ;;
  update "" "".

Definition kill_job (job : SlurmJob) : M unit :=
  if PyStr.isdigit (job_id job)
  then subprocess_run ["scancel"; job_id job]
  else ret tt.

Definition hold_job (job : SlurmJob) : M unit :=
  if PyStr.isdigit (job_id job)
  then subprocess_run ["scontrol"; "hold"; job_id job]
  else ret tt.

Definition release_job (job : SlurmJob) : M unit :=
  if PyStr.isdigit (job_id job)
  then subprocess_run ["scontrol"; "release"; job_id job]
  else ret tt.

(** ** [SquidApp]: the filter settings *)

Record SquidApp : Type := mkSquidApp {
  job_filter_attribute : string;
  job_filter_regex : string
}.

(** [SquidApp.__init__], up to the creation of the display objects: the
    queue is constructed, then the filter settings get their defaults. *)
Definition SquidApp_init : M SquidApp :=
  SlurmQueue_init ;;
  ret {| job_filter_attribute := "name"; job_filter_regex := "" |}.

End SlurmQueue.

(** ** The parser and the filter, as functions of the text

    What the loop of [update] computes, line by line, written as a function
    of the line alone; the theorems below relate the loop to it. *)

Inductive parsed_line : Type :=
| Skipped                      (* an empty line *)
| Parsed (job : SlurmJob)      (* a line that gives a record *)
| Malformed.                   (* a line with fewer than eleven tokens *)

Definition parse_line (line : string) : parsed_line :=
  if PyStr.truthy line then
    match PyStr.split line with
    | t0 :: t1 :: t2 :: t3 :: t4 :: t5 :: t6 :: t7 :: t8 :: t9 :: rest =>
        match rest with
        | [] => Malformed
        | [t10] => Parsed (mkSlurmJob t0 t1 t2 t3 t4 t5 t6 t7 t8 t9 t10)
        | [t10; _] => Parsed (mkSlurmJob t0 t1 t2 t3 t4 t5 t6 t7 t8 t9 t10)
        | _ =>
            Parsed (mkSlurmJob t0 t1 t2 t3 t4 t5 t6 t7 t8 t9
                               nodes_not_available)
        end
    | _ => Malformed
    end
  else Skipped.

(** What the loop raises on a malformed line: the exception of the call of
    [breakpoint()] when that call raises, else [SlurmQueueReadError] with
    the message of the module. *)
Definition raised_on_malformed {host : Host} : exn :=
  match breakpointhook with
  | Some e => e
  | None => SlurmQueueReadError read_error_message
  end.

(** The records of the lines before the first malformed one. *)
Fixpoint records_before_failure (lines : list string) : list SlurmJob :=
  match lines with
  | [] => []
  | line :: rest =>
      match parse_line line with
      | Skipped => records_before_failure rest
      | Parsed job => job :: records_before_failure rest
      | Malformed => []
      end
  end.

Fixpoint has_malformed (lines : list string) : bool :=
  match lines with
  | [] => false
  | line :: rest =>
      match parse_line line with
      | Malformed => true
      | _ => has_malformed rest
      end
  end.

(** The lines of a text. *)
Definition lines_of (queue_info : string) : list string :=
  PyStr.split_on PyStr.LF queue_info.

(** The answer to the queue query made in world [w]. *)
Definition query_answer {host : Host} (w : World) : exn + string :=
  match os_getlogin with
  | inl e => inl e
  | inr user => check_output (squeue_argv user) (trace w)
  end.

(** The pattern matches somewhere in [s]: at one of the positions
    [0 .. len(s)]. *)
Definition matches_somewhere {regex_engine : Regex} (regex s : string)
  : Prop :=
  exists i, i <= String.length s /\ re_match_at regex s i = true.

(** The job is selected by the filter on a field: the value of the field is
    not empty and the pattern matches somewhere in it. *)
Definition selected {regex_engine : Regex} (attribute regex : string)
           (job : SlurmJob) : bool :=
  match dict_get attribute (instance_dict job) with
  | Some s =>
      PyStr.truthy s
      && existsb (re_match_at regex s) (seq 0 (S (String.length s)))
  | None => false
  end.

(** ** Sample environments, for the examples *)

(** A system in which the login name is [user], the queue query answers
    [answer], the control commands return and a debugger that is entered
    is resumed. *)
Definition host_answering (answer : exn + string) : Host :=
  {| os_getlogin := inr "user";
     check_output := fun _ _ => answer;
     run := fun _ _ => None;
     breakpointhook := None |}.

(** The same system, with a debugger that is quit when it is entered. *)
Definition host_quitting_debugger (answer : exn + string) : Host :=
  {| os_getlogin := inr "user";
     check_output := fun _ _ => answer;
     run := fun _ _ => None;
     breakpointhook := Some BdbQuit |}.

Definition is_plain_char (c : ascii) : bool :=
  let n := N_of_ascii c in
  ((48 <=? n) && (n <=? 57) || (65 <=? n) && (n <=? 90)
   || (97 <=? n) && (n <=? 122))%N.

(** A fragment of [re]: a pattern of ASCII letters and digits, which matches
    exactly itself.  Any other pattern is reported as not compiling, with
    [re.error]; of those only ["("] is used below, which [re] rejects as
    well, with that error. *)
Definition plain_re : Regex :=
  {| re_compiles := PyStr.forall_chars is_plain_char;
     re_match_at := fun p s i =>
       (i <=? String.length s)%nat && String.prefix p (PyStr.drop i s);
     re_compile_exn := fun _ => ReError |}.

(** Some of the attributes CPython gives a [SlurmJob] besides its fields:
    the docstring and the module name are strings, [__str__] is a bound
    method, [__hash__] is [None]. *)
Definition sample_object_model : ObjectModel :=
  {| class_attr := fun a =>
       if String.eqb a "__doc__"
       then Some (PyStr "Dataclass to hold information about a slurm job.")
       else if String.eqb a "__module__" then Some (PyStr "squid.slurm")
       else if String.eqb a "__str__" then Some (PyObj true)
       else if String.eqb a "__hash__" then Some (PyObj false)
       else None |}.

Definition empty_world : World := {| jobs := []; trace := [] |}.

(** A job of which only the id and the name matter. *)
Definition job_named (id nm : string) : SlurmJob :=
  mkSlurmJob id nm "part" "1:00" "01-01" "01-02" "01-03" "PD" id "0" "node1".

(** ["\n".join(lines)] *)
Fixpoint text_of_lines (lines : list string) : string :=
  match lines with
  | [] => ""
  | [line] => line
  | line :: rest => line ++ String PyStr.LF (text_of_lines rest)
  end.

(** A well-formed line of the queue, its record, and a line that is too
    short. *)
Definition good_line : string :=
  "123 job1 part 1:00 01-01 01-02 01-03 PD 123 0 node1".

Definition good_job : SlurmJob :=
  mkSlurmJob "123" "job1" "part" "1:00" "01-01" "01-02" "01-03" "PD"
             "123" "0" "node1".

Definition short_line : string := "123 job1".


(** ** Well-formed records and the general filter predicate *)

(** A token: not empty, no whitespace. *)
Definition is_token (s : string) : bool :=
  PyStr.truthy s && negb (PyStr.exists_char PyStr.isspace_char s).

(** What every record read from the queue satisfies: the first ten fields
    are tokens, and node_list is a token or the fixed text. *)
Definition well_formed_record (job : SlurmJob) : bool :=
  forallb is_token
    [ job_id job; name job; partition job; time_used job; submit_time job;
      start_time job; end_time job; state job; array_job_id job;
      array_task_id job ]
  && (is_token (node_list job)
      || String.eqb (node_list job) nodes_not_available).

(** The job passes the test of the loop of [filter_jobs]: its attribute is
    there, is true, and [re.search] finds the pattern in it. *)
Definition kept {regex_engine : Regex} {object_model : ObjectModel}
           (attribute regex : string) (job : SlurmJob) : bool :=
  match getattr job attribute with
  | inr attr =>
      truth_of attr
      && match re_search regex attr with
         | inr found => found
         | inl _ => false
         end
  | inl _ => false
  end.

(** The value of a field is not empty (the job reaches [re.search]). *)
Definition has_value (attribute : string) (job : SlurmJob) : bool :=
  match dict_get attribute (instance_dict job) with
  | Some s => PyStr.truthy s
  | None => false
  end.

(** The test of the loop of [filter_jobs] raises on the job: the attribute
    is missing, or it is true and [re.search] raises on it. *)
Definition raises_on {regex_engine : Regex} {object_model : ObjectModel}
           (attribute regex : string) (job : SlurmJob) : bool :=
  match getattr job attribute with
  | inr attr =>
      truth_of attr
      && match re_search regex attr with
         | inr _ => false
         | inl _ => true
         end
  | inl _ => true
  end.

(** The jobs [filter_jobs] keeps when it returns: all of them without an
    attribute or without a pattern, else those that pass the test. *)
Definition keeps {regex_engine : Regex} {object_model : ObjectModel}
           (attribute regex : string) : SlurmJob -> bool :=
  if negb (PyStr.truthy attribute) || negb (PyStr.truthy regex)
  then fun _ => true
  else kept attribute regex.

(** ** [SlurmJob.__str__] *)

Fixpoint spaces (n : nat) : string :=
  match n with
  | O => ""
  | S n' => String " " (spaces n')
  end.

(** The replacement field [{s:<w}] of an f-string: [s], then blanks up to
    the width [w]; a longer [s] is not cut. *)
Definition ljust (w : nat) (s : string) : string :=
  s ++ spaces (w - String.length s).

Definition HYPHEN : ascii := "-"%char.

(** [time.split("-")[-1]] *)
Definition last_piece (time : string) : string :=
  last (PyStr.split_on HYPHEN time) "".

(** The replacement fields of the f-string of [__str__], in its order: the
    width and the value shown. *)
Definition columns (job : SlurmJob) : list (nat * string) :=
  let times :=
    map last_piece [submit_time job; start_time job; end_time job] in
  [ (10, job_id job);
    (20, name job);
    (25, partition job);
    (10, time_used job);
    (15, nth 0 times "");
    (15, nth 1 times "");
    (15, nth 2 times "");
    (11, state job);
    (16, node_list job);
    (10, array_job_id job);
    (10, array_task_id job) ].

Fixpoint format_fields (fields : list (nat * string)) : string :=
  match fields with
  | [] => ""
  | (w, s) :: rest => ljust w s ++ format_fields rest
  end.

(** [str(job)] *)
Definition SlurmJob_str (job : SlurmJob) : string :=
  format_fields (columns job).

(** The value is a token strictly narrower than its column. *)
Definition fits_column (field : nat * string) : bool :=
  is_token (snd field) && (String.length (snd field) <? fst field)%nat.

(** The sum of the widths the fields take: the column width, or the length
    of a value that is wider. *)
Fixpoint total_width (fields : list (nat * string)) : nat :=
  match fields with
  | [] => 0
  | (w, s) :: rest => Nat.max w (String.length s) + total_width rest
  end.

(** ** [SquidApp]: the handlers of [app.py]

    The widgets are reduced to what the handlers use: the items of the job
    menu, and what the [get()] of a widget returns, which comes in as an
    argument of the handler. *)

(** The loop over the jobs of the queue, under a name that stays visible
    beside the loop of the handlers. *)
Definition for_each_job (body : SlurmJob -> M unit)
  : list SlurmJob -> M unit :=
  for_each body.

Module App.

(** What a handler can raise: an exception of the queue, or the
    [KeyError] of a dict lookup. *)
Inductive app_exn : Type :=
| Queue (e : exn)
| KeyError.

(** [settings] holds [job_filter_attribute] and [job_filter_regex];
    [job_display] is the list of items of the scroll menu of the jobs;
    [world] is the queue object and the commands spawned. *)
Record State : Type := mkState {
  settings : SquidApp;
  job_display : list SlurmJob;
  world : World
}.

Definition AM (A : Type) : Type := State -> (app_exn + A) * State.

Definition ret {A} (a : A) : AM A := fun s => (inr a, s).

Definition raise {A} (e : app_exn) : AM A := fun s => (inl e, s).

Definition bind {A B} (c : AM A) (k : A -> AM B) : AM B :=
  fun s =>
    match c s with
    | (inl e, s') => (inl e, s')
    | (inr a, s') => k a s'
    end.

Notation "x <~ c ;;; k" := (bind c (fun x => k))
  (at level 61, c at next level, right associativity).
Notation "c ;;; k" := (bind c (fun _ => k))
  (at level 61, right associativity).

(** A statement on [self.slurm_queue]. *)
Definition on_queue {A} (c : M A) : AM A :=
  fun s =>
    match c (world s) with
    | (inl e, w') =>
        (inl (Queue e),
         {| settings := settings s; job_display := job_display s;
            world := w' |})
    | (inr a, w') =>
        (inr a,
         {| settings := settings s; job_display := job_display s;
            world := w' |})
    end.

Definition get_settings : AM SquidApp := fun s => (inr (settings s), s).

Definition set_settings (a : SquidApp) : AM unit :=
  fun s =>
    (inr tt,
     {| settings := a; job_display := job_display s; world := world s |}).

(** [self.job_display.clear()] *)
Definition display_clear : AM unit :=
  fun s =>
    (inr tt,
     {| settings := settings s; job_display := []; world := world s |}).

(** [self.job_display.add_item(job)] *)
Definition display_add_item (job : SlurmJob) : AM unit :=
  fun s =>
    (inr tt,
     {| settings := settings s; job_display := job_display s ++ [job];
        world := world s |}).

Fixpoint for_each {A} (body : A -> AM unit) (l : list A) : AM unit :=
  match l with
  | [] => ret tt
  | x :: l' => body x ;;; for_each body l'
  end.

Section Handlers.

Context {host : Host} {regex_engine : Regex} {object_model : ObjectModel}.

Definition update_jobs : AM unit :=
  display_clear ;;;
  a <~ get_settings ;;;
  on_queue (update (job_filter_attribute a) (job_filter_regex a)) ;;;
  display_add_item slurm_banner_fake_job ;;;
  js <~ on_queue get_jobs ;;;
  for_each display_add_item js.

Definition kill_all_jobs : AM unit :=
  js <~ on_queue get_jobs ;;;
  on_queue (for_each_job kill_job js) ;;;
  update_jobs.

Definition hold_all_jobs : AM unit :=
  js <~ on_queue get_jobs ;;;
  on_queue (for_each_job hold_job js) ;;;
  update_jobs.

Definition release_all_jobs : AM unit :=
  js <~ on_queue get_jobs ;;;
  on_queue (for_each_job release_job js) ;;;
  update_jobs.

(** The three handlers on the selected job.  [selection] is what
    [self.job_display.get()] returns: the selected item, or [None] when the
    menu is empty, on which reading [job_id] raises. *)
Definition on_selection (command : SlurmJob -> M unit)
           (selection : option SlurmJob) : AM unit :=
  match selection with
  | Some job => on_queue (command job) ;;; update_jobs
  | None => raise (Queue AttributeError)
  end.

Definition kill_job : option SlurmJob -> AM unit := on_selection kill_job.

Definition hold_job : option SlurmJob -> AM unit := on_selection hold_job.

Definition release_job : option SlurmJob -> AM unit :=
  on_selection release_job.

(** [filter_name] is what [self.filter_attribute_input.get()] returns. *)
Definition set_filter_attribute (filter_name : option string) : AM unit :=
  match filter_name with
  | Some key =>
      match dict_get key NAMES_TO_JOB_ATTRIBUTES with
      | Some attribute =>
          a <~ get_settings ;;;
          set_settings {| job_filter_attribute := attribute;
                          job_filter_regex := job_filter_regex a |} ;;;
          update_jobs
      | None => raise KeyError
      end
  | None => raise KeyError
  end.

(** [text] is what [self.filter_regex_input.get()] returns. *)
Definition set_filter_regex (filter_name : option string) (text : string)
  : AM unit :=
  set_filter_attribute filter_name ;;;
  a <~ get_settings ;;;
  set_settings {| job_filter_attribute := job_filter_attribute a;
                  job_filter_regex := text |} ;;;
  update_jobs.

(** [main], up to the start of the event loop: the application object is
    constructed, with an empty job menu, then the jobs are shown. *)
Definition main : AM unit :=
  a <~ on_queue SquidApp_init ;;;
  set_settings a ;;;
  display_clear ;;;
  update_jobs.

(** The key and button bindings of [create_display_objects] and
    [add_display_functionality], with what the widgets hold at the time. *)
Inductive event : Type :=
| Key_h (selection : option SlurmJob)
| Key_k (selection : option SlurmJob)
| Key_r (selection : option SlurmJob)
| Key_u
| Kill_selected_button
| Hold_selected_button
| Release_selected_button
| Refresh_display_button
| Enter_in_filter_regex (filter_name : option string) (text : string).

Definition handle (ev : event) : AM unit :=
  match ev with
  | Key_h selection => hold_job selection
  | Key_k selection => kill_job selection
  | Key_r selection => release_job selection
  | Key_u => update_jobs
  | Kill_selected_button => kill_all_jobs
  | Hold_selected_button => hold_all_jobs
  | Release_selected_button => release_all_jobs
  | Refresh_display_button => update_jobs
  | Enter_in_filter_regex filter_name text =>
      set_filter_regex filter_name text
  end.

End Handlers.

End App.

(** The command lines of the three job commands. *)
Definition scancel_argv (job : SlurmJob) : argv := ["scancel"; job_id job].

Definition hold_argv (job : SlurmJob) : argv :=
  ["scontrol"; "hold"; job_id job].

Definition release_argv (job : SlurmJob) : argv :=
  ["scontrol"; "release"; job_id job].

(** The jobs a job command acts on. *)
Definition has_digit_id (job : SlurmJob) : bool := PyStr.isdigit (job_id job).

(** A system in which no control command can be spawned: [subprocess.run]
    raises. *)
Definition host_without_commands (answer : exn + string) : Host :=
  {| os_getlogin := inr "user";
     check_output := fun _ _ => answer;
     run := fun _ _ => Some OSError;
     breakpointhook := None |}.
(** * Properties *)

(** ** Strings *)

Example split_example :
  PyStr.split "  123 job1 part  " = ["123"; "job1"; "part"].
Proof. reflexivity. Qed.

Example split_on_example :
  PyStr.split_on PyStr.LF (String "a" (String PyStr.LF (String PyStr.LF "b")))
  = ["a"; ""; "b"].
Proof. reflexivity. Qed.

Lemma exists_char_app (p : ascii -> bool) (s t : string) :
  PyStr.exists_char p (s ++ t)
  = PyStr.exists_char p s || PyStr.exists_char p t.
Proof.
  induction s as [|c s IH]; simpl.
  - reflexivity.
  - rewrite IH. now rewrite orb_assoc.
Qed.

(** The tokens of [split] are not empty and hold no whitespace. *)
Lemma split_from_tokens (s cur t : string) :
  PyStr.exists_char PyStr.isspace_char cur = false ->
  In t (PyStr.split_from cur s) ->
  PyStr.truthy t = true /\ PyStr.exists_char PyStr.isspace_char t = false.
Proof.
  revert cur. induction s as [|c s IH]; intros cur Hcur Hin; simpl in Hin.
  - destruct (PyStr.truthy cur) eqn:Ecur; simpl in Hin.
    + destruct Hin as [<-|[]]. now split.
    + contradiction.
  - destruct (PyStr.isspace_char c) eqn:Ec.
    + destruct (PyStr.truthy cur) eqn:Ecur.
      * destruct Hin as [<-|Hin]; [now split|].
        now apply (IH ""%string).
      * now apply (IH ""%string).
    + apply (IH (cur ++ String c "")%string); [|exact Hin].
      rewrite exists_char_app. simpl. now rewrite Hcur, Ec.
Qed.

Lemma split_tokens (s t : string) :
  In t (PyStr.split s) ->
  PyStr.truthy t = true /\ PyStr.exists_char PyStr.isspace_char t = false.
Proof. now apply split_from_tokens. Qed.

(** No token of a line is the text put in place of a long reason: that
    text holds blanks. *)
Lemma nodes_not_available_no_token (line : string) :
  ~ In nodes_not_available (PyStr.split line).
Proof.
  intros Hin. apply split_tokens in Hin as [_ H]. discriminate H.
Qed.

Lemma positive_integer_isdigit (s : string) :
  PyStr.is_positive_integer s = true -> PyStr.isdigit s = true.
Proof.
  unfold PyStr.is_positive_integer, PyStr.isdigit.
  intros H. apply andb_true_iff in H as [H _].
  apply andb_true_iff in H as [Hne Hall]. rewrite Hne. simpl.
  clear Hne. induction s as [|c s IH]; simpl in *; [reflexivity|].
  apply andb_true_iff in Hall as [Hc Hs].
  rewrite (IH Hs), andb_true_r.
  unfold PyStr.isdigit_char. unfold PyStr.is_decimal_char in Hc.
  now rewrite Hc.
Qed.

(** ** The loop of [update] against [parse_line] *)

Lemma update_line_spec {host : Host} (line : string) (w : World) :
  update_line line w =
  match parse_line line with
  | Skipped => (inr tt, w)
  | Parsed job =>
      (inr tt, {| jobs := jobs w ++ [job]; trace := trace w |})
  | Malformed => (inl raised_on_malformed, w)
  end.
Proof.
  unfold update_line, parse_line, raised_on_malformed, breakpoint.
  destruct (PyStr.truthy line); [|reflexivity].
  destruct (PyStr.split line)
    as [|t0 [|t1 [|t2 [|t3 [|t4 [|t5 [|t6 [|t7 [|t8 [|t9 [|t10 [|t11 [|t12 r]
       ]]]]]]]]]]]]; try reflexivity;
    destruct breakpointhook; reflexivity.
Qed.

Lemma for_each_update_line {host : Host} (lines : list string) (w : World) :
  for_each update_line lines w =
  (if has_malformed lines
   then inl raised_on_malformed
   else inr tt,
   {| jobs := jobs w ++ records_before_failure lines; trace := trace w |}).
Proof.
  revert w. induction lines as [|line lines IH]; intros w; simpl.
  - rewrite app_nil_r. now destruct w.
  - unfold bind. rewrite update_line_spec.
    destruct (parse_line line) as [|job|].
    + apply IH.
    + rewrite IH. simpl. now rewrite <- app_assoc.
    + rewrite app_nil_r. now destruct w.
Qed.

Section Update.

Context {host : Host} {regex_engine : Regex} {object_model : ObjectModel}.

(** What a call of [update] does, case by case. *)
Lemma update_spec (attribute regex : string) (w : World) :
  update attribute regex w =
  match os_getlogin with
  | inl e => (inl e, {| jobs := []; trace := trace w |})
  | inr user =>
      let spawned := trace w ++ [squeue_argv user] in
      match check_output (squeue_argv user) (trace w) with
      | inl e => (inl e, {| jobs := []; trace := spawned |})
      | inr queue_info =>
          let records := records_before_failure (lines_of queue_info) in
          if has_malformed (lines_of queue_info)
          then (inl raised_on_malformed,
                {| jobs := records; trace := spawned |})
          else
            match filter_jobs records attribute regex with
            | inl e => (inl e, {| jobs := records; trace := spawned |})
            | inr filtered =>
                (inr tt, {| jobs := filtered; trace := spawned |})
            end
      end
  end.
Proof.
  unfold update, bind, getlogin, set_jobs, subprocess_check_output, lift.
  simpl.
  destruct os_getlogin as [e|user]; [reflexivity|]. simpl.
  destruct (check_output (squeue_argv user) (trace w)) as [e|queue_info];
    [reflexivity|].
  fold (lines_of queue_info).
  rewrite for_each_update_line. simpl.
  destruct (has_malformed (lines_of queue_info)); [reflexivity|].
  destruct (filter_jobs _ attribute regex); reflexivity.
Qed.

End Update.

(** ** Parsing one line *)

Lemma parse_line_malformed (line : string) :
  PyStr.truthy line = true ->
  List.length (PyStr.split line) < 11 ->
  parse_line line = Malformed.
Proof.
  intros Hne Hlen. unfold parse_line. rewrite Hne.
  destruct (PyStr.split line)
    as [|t0 [|t1 [|t2 [|t3 [|t4 [|t5 [|t6 [|t7 [|t8 [|t9 [|t10 r]
       ]]]]]]]]]]; try reflexivity.
  simpl in Hlen. lia.
Qed.

Lemma has_malformed_in (line : string) (lines : list string) :
  In line lines -> parse_line line = Malformed -> has_malformed lines = true.
Proof.
  intros Hin Hbad. induction lines as [|l lines IH]; simpl in *.
  - contradiction.
  - destruct Hin as [->|Hin].
    + now rewrite Hbad.
    + destruct (parse_line l); auto.
Qed.

(** C4.  A line of exactly eleven tokens (it is then not empty) adds to the
    snapshot one record, whose fields are the tokens in the order job_id,
    name, partition, time_used, submit_time, start_time, end_time, state,
    array_job_id, array_task_id, node_list. *)
Theorem update_line_eleven_tokens {host : Host}
        (line t0 t1 t2 t3 t4 t5 t6 t7 t8 t9 t10 : string) (w : World) :
  PyStr.truthy line = true ->
  PyStr.split line = [t0; t1; t2; t3; t4; t5; t6; t7; t8; t9; t10] ->
  update_line line w =
  (inr tt,
   {| jobs := jobs w ++
        [ {| job_id := t0; name := t1; partition := t2; time_used := t3;
             submit_time := t4; start_time := t5; end_time := t6;
             state := t7; array_job_id := t8; array_task_id := t9;
             node_list := t10 |} ];
      trace := trace w |}).
Proof.
  intros Hne Hsplit. unfold update_line. now rewrite Hne, Hsplit.
Qed.

Lemma update_line_eleven_tokens_witness :
  @update_line (host_answering (inr ""))
     "123 job1 part 1:00 01-01 01-02 01-03 PD 123 0 node1" empty_world
  = (inr tt,
     {| jobs := [ mkSlurmJob "123" "job1" "part" "1:00" "01-01" "01-02"
                             "01-03" "PD" "123" "0" "node1" ];
        trace := [] |}).
Proof.
  exact (@update_line_eleven_tokens (host_answering (inr ""))
           "123 job1 part 1:00 01-01 01-02 01-03 PD 123 0 node1"
           "123" "job1" "part" "1:00" "01-01" "01-02" "01-03" "PD" "123"
           "0" "node1" empty_world eq_refl eq_refl).
Defined.

(** C5.  A line of exactly twelve tokens loses the last one (the reason):
    the record is made of the first eleven, so node_list is token 10. *)
Theorem update_line_twelve_tokens {host : Host}
        (line t0 t1 t2 t3 t4 t5 t6 t7 t8 t9 t10 t11 : string) (w : World) :
  PyStr.split line = [t0; t1; t2; t3; t4; t5; t6; t7; t8; t9; t10; t11] ->
  update_line line w =
  (inr tt,
   {| jobs := jobs w ++
        [ {| job_id := t0; name := t1; partition := t2; time_used := t3;
             submit_time := t4; start_time := t5; end_time := t6;
             state := t7; array_job_id := t8; array_task_id := t9;
             node_list := t10 |} ];
      trace := trace w |}).
Proof.
  intros Hsplit. unfold update_line.
  destruct line as [|c line]; [discriminate Hsplit|].
  simpl PyStr.truthy. cbv iota. now rewrite Hsplit.
Qed.

Lemma update_line_twelve_tokens_witness :
  @update_line (host_answering (inr ""))
    "123 job1 part 1:00 01-01 01-02 01-03 PD 123 0 node1 Resources"
    empty_world
  = (inr tt,
     {| jobs := [ mkSlurmJob "123" "job1" "part" "1:00" "01-01" "01-02"
                             "01-03" "PD" "123" "0" "node1" ];
        trace := [] |}).
Proof.
  exact (@update_line_twelve_tokens (host_answering (inr ""))
           "123 job1 part 1:00 01-01 01-02 01-03 PD 123 0 node1 Resources"
           "123" "job1" "part" "1:00" "01-01" "01-02" "01-03" "PD" "123"
           "0" "node1" "Resources" empty_world eq_refl).
Defined.

(** C6.  A line of more than twelve tokens adds one record: its first ten
    fields are the first ten tokens, and node_list is the fixed text
    "Nodes N. Avail.", which is none of the tokens of the line. *)
Theorem update_line_long_reason {host : Host} (line : string) (w : World) :
  12 < List.length (PyStr.split line) ->
  exists job,
    update_line line w
    = (inr tt, {| jobs := jobs w ++ [job]; trace := trace w |})
    /\ [ job_id job; name job; partition job; time_used job;
         submit_time job; start_time job; end_time job; state job;
         array_job_id job; array_task_id job ]
       = firstn 10 (PyStr.split line)
    /\ node_list job = "Nodes N. Avail."
    /\ ~ In (node_list job) (PyStr.split line).
Proof.
  intros Hlen.
  pose proof (nodes_not_available_no_token line) as Hno.
  rewrite update_line_spec. unfold parse_line.
  destruct line as [|c line]; [simpl in Hlen; lia|].
  simpl PyStr.truthy. cbv iota.
  destruct (PyStr.split (String c line))
    as [|t0 [|t1 [|t2 [|t3 [|t4 [|t5 [|t6 [|t7 [|t8 [|t9 [|t10 [|t11 [|t12 r]
       ]]]]]]]]]]]]; simpl in Hlen; try lia.
  eexists. split; [reflexivity|]. simpl. repeat split. exact Hno.
Qed.

Lemma update_line_long_reason_witness :
  exists job,
    @update_line (host_answering (inr ""))
      "9 j p 0:00 a b c PD 9 0 Nodes required for job are DOWN"
      empty_world
    = (inr tt, {| jobs := [job]; trace := [] |})
    /\ [ job_id job; name job; partition job; time_used job;
         submit_time job; start_time job; end_time job; state job;
         array_job_id job; array_task_id job ]
       = ["9"; "j"; "p"; "0:00"; "a"; "b"; "c"; "PD"; "9"; "0"]
    /\ node_list job = "Nodes N. Avail."
    /\ ~ In (node_list job)
         ["9"; "j"; "p"; "0:00"; "a"; "b"; "c"; "PD"; "9"; "0";
          "Nodes"; "required"; "for"; "job"; "are"; "DOWN"].
Proof.
  apply (@update_line_long_reason (host_answering (inr ""))
           "9 j p 0:00 a b c PD 9 0 Nodes required for job are DOWN"
           empty_world).
  vm_compute. lia.
Defined.

(** ** Failing refreshes *)

Lemma update_line_short {host : Host} (line : string) (w : World) :
  PyStr.truthy line = true ->
  List.length (PyStr.split line) < 11 ->
  update_line line w = (inl raised_on_malformed, w).
Proof.
  intros Hne Hlen.
  now rewrite update_line_spec, (parse_line_malformed line Hne Hlen).
Qed.

Section Refresh.

Context {host : Host} {regex_engine : Regex} {object_model : ObjectModel}.

(** C1, as the code has it.  When [update] raises, the snapshot it leaves
    is fixed by the call alone, whatever was stored before: it is empty
    when the queue query failed, and it holds the records of the lines
    before the first malformed one when the query answered. *)
Theorem update_failure_snapshot
        (attribute regex : string) (w w' : World) (e : exn) :
  update attribute regex w = (inl e, w') ->
  jobs w' =
  match query_answer w with
  | inl _ => []
  | inr queue_info => records_before_failure (lines_of queue_info)
  end.
Proof.
  rewrite update_spec. unfold query_answer.
  destruct os_getlogin as [e0|user].
  - intros [= _ <-]. reflexivity.
  - cbv zeta.
    destruct (check_output (squeue_argv user) (trace w)) as [e0|queue_info].
    + intros [= _ <-]. reflexivity.
    + destruct (has_malformed (lines_of queue_info)).
      * intros [= _ <-]. reflexivity.
      * destruct (filter_jobs _ attribute regex).
        -- intros [= _ <-]. reflexivity.
        -- discriminate.
Qed.

(** C2, as the code has it.  A non-empty line of fewer than eleven tokens
    makes the loop body call [breakpoint()] and add no record.  When that
    call returns (the debugger is resumed, or breakpoints are switched
    off) the body raises [SlurmQueueReadError] with the one fixed message
    of the module; when that call raises (the debugger is quit) its
    exception is the one the body raises.  A queue answer holding such a
    line makes [update] raise in the same way, so the call yields no
    result. *)
Theorem update_short_line_raises
        (attribute regex queue_info line : string) (w : World) :
  query_answer w = inr queue_info ->
  In line (lines_of queue_info) ->
  PyStr.truthy line = true ->
  List.length (PyStr.split line) < 11 ->
  let raised :=
    match breakpointhook with
    | Some e => e
    | None => SlurmQueueReadError read_error_message
    end in
  (forall w0, update_line line w0 = (inl raised, w0))
  /\ exists w', update attribute regex w = (inl raised, w').
Proof.
  intros Hq Hin Hne Hlen raised. split.
  - intros w0. now apply update_line_short.
  - rewrite update_spec. unfold query_answer in Hq.
    destruct os_getlogin as [e0|user]; [discriminate Hq|].
    cbv zeta. rewrite Hq.
    rewrite (has_malformed_in line _ Hin
               (parse_line_malformed line Hne Hlen)).
    eexists. reflexivity.
Qed.

(** C10, as the code has it.  Constructing the queue runs [update] with
    the empty filter: when the login name is [user], the query answers
    and no line is malformed, exactly one command (the queue query) has
    been spawned, the snapshot holds every record of the answer, and the
    application's filter is the attribute ["name"] with an empty
    pattern. *)
Theorem construction_reads_queue
        (user queue_info : string) (w : World) :
  os_getlogin = inr user ->
  check_output (squeue_argv user) (trace w) = inr queue_info ->
  has_malformed (lines_of queue_info) = false ->
  let after :=
    {| jobs := records_before_failure (lines_of queue_info);
       trace := trace w ++ [squeue_argv user] |} in
  SlurmQueue_init w = (inr tt, after)
  /\ SquidApp_init w
     = (inr {| job_filter_attribute := "name"; job_filter_regex := "" |},
        after).
Proof.
  intros Hlogin Hout Hok after.
  assert (Hinit : SlurmQueue_init w = (inr tt, after)).
  { unfold SlurmQueue_init, bind, set_jobs. rewrite update_spec.
    rewrite Hlogin. cbv zeta. simpl trace. rewrite Hout, Hok.
    reflexivity. }
  split; [exact Hinit|].
  unfold SquidApp_init, bind. now rewrite Hinit.
Qed.

End Refresh.

Lemma update_failure_snapshot_witness :
  jobs {| jobs := [good_job]; trace := [squeue_argv "user"] |}
  = records_before_failure [good_line; short_line].
Proof.
  exact (@update_failure_snapshot
           (host_answering (inr (text_of_lines [good_line; short_line])))
           plain_re sample_object_model "" ""
           {| jobs := [job_named "7" "old"]; trace := [] |}
           {| jobs := [good_job]; trace := [squeue_argv "user"] |}
           (SlurmQueueReadError read_error_message) eq_refl).
Defined.

(** C1, as the claim has it, fails: a failing refresh does not keep the
    stored snapshot.  With one job stored, a failing queue query leaves
    the empty snapshot, and an answer whose second line is too short leaves
    the record of its first line. *)
Lemma failed_refresh_changes_snapshot :
  let before := {| jobs := [job_named "7" "old"]; trace := [] |} in
  (exists after,
      @update (host_answering (inl CalledProcessError)) plain_re
              sample_object_model "" "" before
      = (inl CalledProcessError, after)
      /\ jobs after = []
      /\ jobs after <> jobs before)
  /\ (exists after,
      @update (host_answering (inr (text_of_lines [good_line; short_line])))
              plain_re sample_object_model "" "" before
      = (inl (SlurmQueueReadError read_error_message), after)
      /\ jobs after = [good_job]
      /\ jobs after <> jobs before).
Proof.
  split; eexists; (split; [vm_compute; reflexivity|]);
    split; try reflexivity; discriminate.
Qed.

Lemma update_short_line_raises_witness :
  (forall w0,
      @update_line
         (host_answering (inr (text_of_lines [good_line; short_line])))
         short_line w0
      = (inl (SlurmQueueReadError read_error_message), w0))
  /\ exists w',
      @update (host_answering (inr (text_of_lines [good_line; short_line])))
              plain_re sample_object_model "" "" empty_world
      = (inl (SlurmQueueReadError read_error_message), w').
Proof.
  apply (@update_short_line_raises
           (host_answering (inr (text_of_lines [good_line; short_line])))
           plain_re sample_object_model "" ""
           (text_of_lines [good_line; short_line]) short_line empty_world).
  - reflexivity.
  - vm_compute. right. left. reflexivity.
  - reflexivity.
  - vm_compute. lia.
Defined.

(** C2, as the claim has it, fails: the error of a short line does not name
    the line.  With a debugger that is resumed, the message is the same for
    two different short lines and holds neither of them; with a debugger
    that is quit, the exception is not the read error at all; and the empty
    line, which has no token at all, is skipped without an error. *)
Lemma short_line_error_names_no_line :
  List.length (PyStr.split "123 job1") < 11
  /\ @update_line (host_answering (inr "")) "123 job1" empty_world
     = (inl (SlurmQueueReadError read_error_message), empty_world)
  /\ @update_line (host_answering (inr "")) "456 job2 part" empty_world
     = (inl (SlurmQueueReadError read_error_message), empty_world)
  /\ PyStr.contains "123 job1" read_error_message = false
  /\ PyStr.contains "456 job2 part" read_error_message = false
  /\ @update_line (host_quitting_debugger (inr "")) "123 job1" empty_world
     = (inl BdbQuit, empty_world)
  /\ List.length (PyStr.split "") < 11
  /\ @update_line (host_answering (inr "")) "" empty_world
     = (inr tt, empty_world).
Proof.
  repeat split; try reflexivity; vm_compute; lia.
Qed.

Lemma construction_reads_queue_witness :
  @SlurmQueue_init (host_answering (inr good_line)) plain_re
                   sample_object_model empty_world
  = (inr tt, {| jobs := [good_job]; trace := [squeue_argv "user"] |})
  /\ @SquidApp_init (host_answering (inr good_line)) plain_re
                    sample_object_model empty_world
     = (inr {| job_filter_attribute := "name"; job_filter_regex := "" |},
        {| jobs := [good_job]; trace := [squeue_argv "user"] |}).
Proof.
  exact (@construction_reads_queue
           (host_answering (inr good_line)) plain_re sample_object_model
           "user" good_line empty_world eq_refl eq_refl eq_refl).
Defined.

(** C10, as the claim has it, fails: with one job in the queue, the
    constructor has spawned the queue query and stored the job before any
    refresh is asked for, and the stored filter attribute is ["name"]. *)
Lemma construction_queries_queue :
  exists app after,
    @SquidApp_init (host_answering (inr good_line)) plain_re
                   sample_object_model empty_world
    = (inr app, after)
    /\ jobs after = [good_job]
    /\ jobs after <> []
    /\ trace after = [squeue_argv "user"]
    /\ job_filter_attribute app = "name"
    /\ job_filter_attribute app <> "".
Proof.
  do 2 eexists. split; [vm_compute; reflexivity|].
  repeat split; discriminate.
Qed.

(** ** Hold, release, kill *)

Section Mutation.

Context {host : Host}.

(** C3, as the code has it.  The guard of the three commands is
    [str.isdigit]: when job_id is not a non-empty string of digits (the
    banner's "Job ID" is not) the command does nothing, and otherwise it
    spawns exactly one process, [scancel] or [scontrol], on that id.
    Every positive-integer string passes the guard. *)
Theorem mutation_guard (job : SlurmJob) (w : World) :
  (PyStr.isdigit (job_id job) = false ->
   kill_job job w = (inr tt, w)
   /\ hold_job job w = (inr tt, w)
   /\ release_job job w = (inr tt, w))
  /\ (PyStr.isdigit (job_id job) = true ->
      snd (kill_job job w)
      = {| jobs := jobs w;
           trace := trace w ++ [["scancel"; job_id job]] |}
      /\ snd (hold_job job w)
         = {| jobs := jobs w;
              trace := trace w ++ [["scontrol"; "hold"; job_id job]] |}
      /\ snd (release_job job w)
         = {| jobs := jobs w;
              trace := trace w ++ [["scontrol"; "release"; job_id job]] |})
  /\ (job_id job = "Job ID" -> PyStr.isdigit (job_id job) = false)
  /\ (PyStr.is_positive_integer (job_id job) = true ->
      PyStr.isdigit (job_id job) = true).
Proof.
  unfold kill_job, hold_job, release_job.
  split; [|split; [|split]].
  - intros ->. now repeat split.
  - intros ->. now repeat split.
  - now intros ->.
  - apply positive_integer_isdigit.
Qed.

End Mutation.

Lemma mutation_guard_witness :
  (@kill_job (host_answering (inr "")) slurm_banner_fake_job empty_world
   = (inr tt, empty_world)
   /\ @hold_job (host_answering (inr "")) slurm_banner_fake_job empty_world
      = (inr tt, empty_world)
   /\ @release_job (host_answering (inr "")) slurm_banner_fake_job
                   empty_world
      = (inr tt, empty_world))
  /\ snd (@kill_job (host_answering (inr "")) good_job empty_world)
     = {| jobs := []; trace := [["scancel"; "123"]] |}.
Proof.
  split.
  - exact (proj1 (@mutation_guard (host_answering (inr ""))
                    slurm_banner_fake_job empty_world) eq_refl).
  - exact (proj1 (proj1 (proj2 (@mutation_guard (host_answering (inr ""))
                                  good_job empty_world)) eq_refl)).
Defined.

(** C3, as the claim has it, fails: "0" is not a positive-integer string,
    and each of the three commands spawns a process on it. *)
Lemma zero_id_is_mutated :
  let job := job_named "0" "zero" in
  PyStr.is_positive_integer (job_id job) = false
  /\ trace (snd (@kill_job (host_answering (inr "")) job empty_world))
     = [["scancel"; "0"]]
  /\ trace (snd (@hold_job (host_answering (inr "")) job empty_world))
     = [["scontrol"; "hold"; "0"]]
  /\ trace (snd (@release_job (host_answering (inr "")) job empty_world))
     = [["scontrol"; "release"; "0"]].
Proof. repeat split. Qed.

(** ** The filter *)

(** A field name is a key of the instance dictionary of every job. *)
Lemma field_in_instance_dict (attribute : string) (job : SlurmJob) :
  is_field attribute = true ->
  exists s, dict_get attribute (instance_dict job) = Some s.
Proof.
  unfold is_field, field_names, instance_dict. simpl.
  repeat (destruct (String.eqb attribute _); [eauto|]).
  discriminate.
Qed.

(** Conversely, for a name that is no field the dictionary has nothing. *)
Lemma other_name_not_in_instance_dict (attribute : string) (job : SlurmJob) :
  is_field attribute = false ->
  dict_get attribute (instance_dict job) = None.
Proof.
  unfold is_field, field_names, instance_dict. simpl.
  repeat (destruct (String.eqb attribute _); [discriminate|]).
  reflexivity.
Qed.

Lemma truthy_iff_nonempty (s : string) :
  PyStr.truthy s = true <-> s <> "".
Proof.
  destruct s; simpl; split; congruence.
Qed.

Section Filter.

Context {regex_engine : Regex} {object_model : ObjectModel}.

Lemma existsb_positions (regex s : string) :
  existsb (re_match_at regex s) (seq 0 (S (String.length s))) = true
  <-> matches_somewhere regex s.
Proof.
  unfold matches_somewhere. rewrite existsb_exists. split.
  - intros (i & Hin & Hm). apply in_seq in Hin. exists i. split; [lia|auto].
  - intros (i & Hle & Hm). exists i. split; [apply in_seq; lia|auto].
Qed.

Lemma selected_iff (attribute regex : string) (job : SlurmJob) :
  selected attribute regex job = true
  <-> exists s,
        dict_get attribute (instance_dict job) = Some s
        /\ s <> "" /\ matches_somewhere regex s.
Proof.
  unfold selected.
  destruct (dict_get attribute (instance_dict job)) as [s|].
  - rewrite andb_true_iff, truthy_iff_nonempty, existsb_positions.
    split.
    + intros [Hne Hm]. now exists s.
    + intros (s' & [= <-] & Hne & Hm). now split.
  - split; [discriminate|]. now intros (s' & [=] & _).
Qed.

(** On a field and with a pattern that compiles, the loop appends the
    selected jobs to what it has built, in their order. *)
Lemma filter_loop_field (attribute regex : string) :
  is_field attribute = true ->
  re_compiles regex = true ->
  forall jobs filtered_jobs,
    filter_loop attribute regex jobs filtered_jobs
    = inr (filtered_jobs ++ filter (selected attribute regex) jobs).
Proof.
  intros Hfield Hre jobs.
  induction jobs as [|job rest IH]; intros acc.
  - simpl. now rewrite app_nil_r.
  - cbn [filter_loop filter]. unfold getattr.
    destruct (field_in_instance_dict attribute job Hfield) as [s Hs].
    assert (Hsel : selected attribute regex job
                   = PyStr.truthy s
                     && existsb (re_match_at regex s)
                                (seq 0 (S (String.length s)))).
    { unfold selected. now rewrite Hs. }
    rewrite Hs, Hsel. cbn [truth_of].
    destruct (PyStr.truthy s); cbn [andb].
    + unfold re_search. rewrite Hre.
      destruct (existsb (re_match_at regex s) _).
      * rewrite IH, <- app_assoc. reflexivity.
      * apply IH.
    + apply IH.
Qed.

(** C7, as the code has it.  On one of the eleven field names and with a
    non-empty pattern that compiles, [filter_jobs] returns exactly the
    jobs, in their order, whose value of the field is not empty and holds
    a match of the pattern at some position. *)
Theorem filter_jobs_field
        (jobs : list SlurmJob) (attribute regex : string) :
  is_field attribute = true ->
  PyStr.truthy regex = true ->
  re_compiles regex = true ->
  filter_jobs jobs attribute regex
  = inr (filter (selected attribute regex) jobs)
  /\ forall job,
      selected attribute regex job = true
      <-> exists s,
            dict_get attribute (instance_dict job) = Some s
            /\ s <> "" /\ matches_somewhere regex s.
Proof.
  intros Hfield Hregex Hre. split; [|intros job; apply selected_iff].
  unfold filter_jobs.
  assert (Hattr : PyStr.truthy attribute = true).
  { destruct attribute; [discriminate Hfield|reflexivity]. }
  rewrite Hattr, Hregex. simpl.
  now rewrite filter_loop_field.
Qed.

(** C8.  With an empty attribute or an empty pattern, [filter_jobs]
    returns the list it was given. *)
Theorem filter_jobs_identity
        (jobs : list SlurmJob) (attribute regex : string) :
  attribute = "" \/ regex = "" ->
  filter_jobs jobs attribute regex = inr jobs.
Proof.
  unfold filter_jobs. intros [-> | ->]; simpl.
  - reflexivity.
  - now rewrite orb_true_r.
Qed.

(** C9, as the code has it.  On a list with at least one job, and for a
    non-empty name that is neither a field nor an attribute the class
    provides, with a non-empty pattern, [filter_jobs] raises
    [AttributeError]. *)
Theorem filter_jobs_unknown_attribute
        (jobs : list SlurmJob) (attribute regex : string) :
  jobs <> [] ->
  PyStr.truthy attribute = true ->
  PyStr.truthy regex = true ->
  is_field attribute = false ->
  class_attr attribute = None ->
  filter_jobs jobs attribute regex = inl AttributeError.
Proof.
  intros Hjobs Hattr Hregex Hfield Hclass. unfold filter_jobs.
  rewrite Hattr, Hregex. simpl.
  destruct jobs as [|job rest]; [contradiction|]. simpl.
  unfold getattr.
  now rewrite (other_name_not_in_instance_dict attribute job Hfield), Hclass.
Qed.

End Filter.

Lemma filter_jobs_field_witness :
  @filter_jobs plain_re sample_object_model
     [job_named "1" "alpha"; job_named "2" "beta"; job_named "3" "alphabet"]
     "name" "alpha"
  = inr [job_named "1" "alpha"; job_named "3" "alphabet"].
Proof.
  exact (proj1 (@filter_jobs_field plain_re sample_object_model
                  [job_named "1" "alpha"; job_named "2" "beta";
                   job_named "3" "alphabet"]
                  "name" "alpha" eq_refl eq_refl eq_refl)).
Defined.

(** C7, as the claim has it, fails: ["("] is a non-empty pattern that does
    not compile; on it the filter raises the error of [re] instead of
    returning jobs. *)
Lemma filter_jobs_bad_pattern :
  is_field "name" = true
  /\ PyStr.truthy "(" = true
  /\ @filter_jobs plain_re sample_object_model [job_named "1" "alpha"]
                  "name" "("
     = inl ReError.
Proof. repeat split. Qed.

Lemma filter_jobs_identity_witness :
  @filter_jobs plain_re sample_object_model
     [job_named "1" "alpha"; job_named "2" "beta"] "" "anything"
  = inr [job_named "1" "alpha"; job_named "2" "beta"]
  /\ @filter_jobs plain_re sample_object_model
       [job_named "1" "alpha"; job_named "2" "beta"] "state" ""
     = inr [job_named "1" "alpha"; job_named "2" "beta"].
Proof.
  split.
  - apply (@filter_jobs_identity plain_re sample_object_model). now left.
  - apply (@filter_jobs_identity plain_re sample_object_model). now right.
Defined.

Lemma filter_jobs_unknown_attribute_witness :
  @filter_jobs plain_re sample_object_model [job_named "1" "alpha"]
               "owner" "alpha"
  = inl AttributeError.
Proof.
  apply (@filter_jobs_unknown_attribute plain_re sample_object_model);
    [discriminate | reflexivity | reflexivity | reflexivity | reflexivity].
Defined.

(** C9, as the claim has it, fails: on the empty list the filter returns
    the empty list for any attribute name; and ["__doc__"], which is no
    field, is an attribute of every job, so the filter runs on the
    docstring of the class. *)
Lemma filter_jobs_unknown_attribute_no_error :
  is_field "owner" = false
  /\ @filter_jobs plain_re sample_object_model [] "owner" "alpha" = inr []
  /\ is_field "__doc__" = false
  /\ @filter_jobs plain_re sample_object_model [job_named "1" "alpha"]
                  "__doc__" "slurm"
     = inr [job_named "1" "alpha"].
Proof. repeat split. Qed.

(** ** The attribute menu of the application *)

(** Every attribute the application can select from its menu is a field,
    and every field is on the menu. *)
Lemma menu_attributes_are_fields (attribute : string) :
  In attribute (map snd NAMES_TO_JOB_ATTRIBUTES) <-> is_field attribute = true.
Proof.
  unfold is_field. rewrite existsb_exists. split.
  - intros Hin. exists attribute. split; [|apply String.eqb_refl].
    simpl in Hin. simpl. intuition.
  - intros (f & Hin & Heq). apply String.eqb_eq in Heq. subst f.
    simpl in Hin. simpl. intuition.
Qed.

(** * Further properties of [slurm.py] *)

(** ** Refreshes *)

Lemma filter_jobs_no_filter
      {regex_engine : Regex} {object_model : ObjectModel}
      (jobs : list SlurmJob) :
  filter_jobs jobs "" "" = inr jobs.
Proof. reflexivity. Qed.

Section RefreshMore.

Context {host : Host} {regex_engine : Regex} {object_model : ObjectModel}.

(** X1.  The outcome of a refresh, result and state, does not depend on
    the snapshot stored before the call. *)
Theorem update_forgets_previous_snapshot
        (attribute regex : string) (w : World) (stored : list SlurmJob) :
  update attribute regex {| jobs := stored; trace := trace w |}
  = update attribute regex w.
Proof. now rewrite !update_spec. Qed.

(** X2.  Whatever its outcome, a refresh spawns exactly one command, the
    queue query for the login name, and none when the login name cannot be
    read. *)
Theorem update_spawns_one_query (attribute regex : string) (w : World) :
  trace (snd (update attribute regex w))
  = match os_getlogin with
    | inl _ => trace w
    | inr user => trace w ++ [squeue_argv user]
    end.
Proof.
  rewrite update_spec.
  destruct os_getlogin as [e|user]; [reflexivity|]. cbv zeta.
  destruct (check_output (squeue_argv user) (trace w)) as [e|queue_info];
    [reflexivity|].
  destruct (has_malformed (lines_of queue_info)); [reflexivity|].
  destruct (filter_jobs _ attribute regex); reflexivity.
Qed.

(** X3.  A refresh with a filter is the refresh without a filter followed
    by [filter_jobs] on its snapshot; when the filter raises, the
    unfiltered snapshot stays stored. *)
Theorem update_is_read_then_filter
        (attribute regex : string) (w unfiltered : World) :
  update "" "" w = (inr tt, unfiltered) ->
  update attribute regex w
  = match filter_jobs (jobs unfiltered) attribute regex with
    | inl e => (inl e, unfiltered)
    | inr filtered =>
        (inr tt, {| jobs := filtered; trace := trace unfiltered |})
    end.
Proof.
  rewrite !update_spec.
  destruct os_getlogin as [e|user]; [discriminate|]. cbv zeta.
  destruct (check_output (squeue_argv user) (trace w)) as [e|queue_info];
    [discriminate|].
  destruct (has_malformed (lines_of queue_info)); [discriminate|].
  rewrite filter_jobs_no_filter. intros [= <-]. simpl.
  destruct (filter_jobs _ attribute regex); reflexivity.
Qed.

End RefreshMore.

Lemma update_is_read_then_filter_witness :
  @update (host_answering (inr good_line)) plain_re sample_object_model
          "name" "zzz" empty_world
  = (inr tt, {| jobs := []; trace := [squeue_argv "user"] |}).
Proof.
  exact (@update_is_read_then_filter
           (host_answering (inr good_line)) plain_re sample_object_model
           "name" "zzz" empty_world
           {| jobs := [good_job]; trace := [squeue_argv "user"] |} eq_refl).
Defined.

(** ** Lines of the queue answer *)

Lemma split_from_blank (s : string) :
  PyStr.forall_chars PyStr.isspace_char s = true ->
  PyStr.split_from "" s = [].
Proof.
  induction s as [|c s IH]; simpl; [reflexivity|].
  intros H. apply andb_true_iff in H as [Hc Hs]. rewrite Hc. simpl. auto.
Qed.

Lemma lines_of_line_feeds (s line : string) :
  PyStr.forall_chars (Ascii.eqb PyStr.LF) s = true ->
  In line (PyStr.split_on_from PyStr.LF "" s) -> line = "".
Proof.
  induction s as [|c s IH]; cbn [PyStr.forall_chars PyStr.split_on_from].
  - intros _ [<-|[]]. reflexivity.
  - intros H. apply andb_true_iff in H as [Hc Hs].
    apply Ascii.eqb_eq in Hc. subst c. rewrite Ascii.eqb_refl.
    intros [<-|Hin]; [reflexivity|auto].
Qed.

Lemma empty_lines_give_nothing (lines : list string) :
  (forall line, In line lines -> line = "") ->
  records_before_failure lines = [] /\ has_malformed lines = false.
Proof.
  induction lines as [|l lines IH]; intros H; simpl; [now split|].
  rewrite (H l (or_introl eq_refl)). simpl.
  apply IH. intros line Hin. apply H. now right.
Qed.

Lemma is_token_of_split (line t : string) :
  In t (PyStr.split line) -> is_token t = true.
Proof.
  intros Hin. apply split_tokens in Hin as [Hne Hws].
  unfold is_token. now rewrite Hne, Hws.
Qed.

Lemma parse_line_well_formed (line : string) (job : SlurmJob) :
  parse_line line = Parsed job -> well_formed_record job = true.
Proof.
  unfold parse_line. destruct (PyStr.truthy line); [|discriminate].
  pose proof (is_token_of_split line) as Htok.
  destruct (PyStr.split line)
    as [|t0 [|t1 [|t2 [|t3 [|t4 [|t5 [|t6 [|t7 [|t8 [|t9 [|t10 [|t11 [|t12 r]
       ]]]]]]]]]]]]; try discriminate;
    intros [= <-]; unfold well_formed_record; cbn [forallb job_id name
      partition time_used submit_time start_time end_time state array_job_id
      array_task_id node_list];
    rewrite ?Htok by (simpl; tauto); reflexivity.
Qed.

Lemma records_well_formed (lines : list string) (job : SlurmJob) :
  In job (records_before_failure lines) -> well_formed_record job = true.
Proof.
  induction lines as [|l lines IH]; simpl; [contradiction|].
  destruct (parse_line l) as [|j|] eqn:El.
  - exact IH.
  - intros [<-|Hin]; [now apply (parse_line_well_formed l)|auto].
  - contradiction.
Qed.

Lemma parse_line_empty (line : string) :
  PyStr.truthy line = false -> parse_line line = Skipped.
Proof. unfold parse_line. now intros ->. Qed.

Lemma parse_line_nonempty (line : string) :
  PyStr.truthy line = true -> parse_line line <> Skipped.
Proof.
  unfold parse_line. intros ->. cbv iota.
  destruct (PyStr.split line)
    as [|t0 [|t1 [|t2 [|t3 [|t4 [|t5 [|t6 [|t7 [|t8 [|t9 [|t10 [|t11 [|t12 r]
       ]]]]]]]]]]]]; intros H; discriminate H.
Qed.

(** Without a malformed line there is one record for each non-empty line,
    in the order of the lines. *)
Lemma records_follow_lines (lines : list string) :
  has_malformed lines = false ->
  map Parsed (records_before_failure lines)
  = map parse_line (filter PyStr.truthy lines).
Proof.
  induction lines as [|l lines IH];
    cbn [records_before_failure has_malformed filter map]; [reflexivity|].
  destruct (PyStr.truthy l) eqn:El.
  - cbn [map]. destruct (parse_line l) as [|j|] eqn:Ep.
    + now destruct (parse_line_nonempty l El).
    + intros Hm. cbn [map]. f_equal. auto.
    + discriminate.
  - rewrite (parse_line_empty l El). exact IH.
Qed.

(** ** The filter on any attribute *)

Lemma filter_all {A} (l : list A) : filter (fun _ => true) l = l.
Proof. induction l as [|x l IH]; simpl; congruence. Qed.

Lemma filter_swap {A} (p q : A -> bool) (l : list A) :
  filter p (filter q l) = filter q (filter p l).
Proof.
  induction l as [|x l IH]; simpl; [reflexivity|].
  destruct (q x) eqn:Eq, (p x) eqn:Ep; simpl; rewrite ?Eq, ?Ep; congruence.
Qed.

Lemma filter_twice {A} (p : A -> bool) (l : list A) :
  filter p (filter p l) = filter p l.
Proof.
  induction l as [|x l IH]; simpl; [reflexivity|].
  destruct (p x) eqn:Ep; simpl; rewrite ?Ep; congruence.
Qed.

Lemma Forall_filter_part {A} (P : A -> Prop) (p : A -> bool) (l : list A) :
  Forall P l -> Forall P (filter p l).
Proof.
  induction 1 as [|x l Hx Hl IH]; simpl; [constructor|].
  destruct (p x); auto.
Qed.

Section FilterMore.

Context {regex_engine : Regex} {object_model : ObjectModel}.

Lemma filter_loop_no_raise (attribute regex : string) (jobs : list SlurmJob) :
  Forall (fun job => raises_on attribute regex job = false) jobs ->
  forall filtered_jobs,
    filter_loop attribute regex jobs filtered_jobs
    = inr (filtered_jobs ++ filter (kept attribute regex) jobs).
Proof.
  induction 1 as [|job rest Hjob Hrest IH]; intros acc.
  - simpl. now rewrite app_nil_r.
  - cbn [filter_loop filter]. unfold raises_on in Hjob. unfold kept.
    destruct (getattr job attribute) as [e|attr]; [discriminate Hjob|].
    destruct (truth_of attr); cbn [andb] in *; [|apply IH].
    destruct (re_search regex attr) as [e|[|]]; [discriminate Hjob| |apply IH].
    rewrite IH, <- app_assoc. reflexivity.
Qed.

Lemma filter_loop_returns (attribute regex : string) (jobs : list SlurmJob) :
  forall filtered_jobs result,
    filter_loop attribute regex jobs filtered_jobs = inr result ->
    Forall (fun job => raises_on attribute regex job = false) jobs.
Proof.
  induction jobs as [|job rest IH]; intros acc result; [constructor|].
  cbn [filter_loop]. intros H.
  assert (Hjob : raises_on attribute regex job = false
                 /\ exists acc', filter_loop attribute regex rest acc'
                                 = inr result).
  { unfold raises_on.
    destruct (getattr job attribute) as [e|attr]; [discriminate H|].
    destruct (truth_of attr); cbn [andb]; [|eauto].
    destruct (re_search regex attr) as [e|[|]]; [discriminate H| |]; eauto. }
  destruct Hjob as [Hjob [acc' Hrest]]. constructor; eauto.
Qed.

Lemma filter_jobs_keeps (jobs result : list SlurmJob)
      (attribute regex : string) :
  filter_jobs jobs attribute regex = inr result ->
  result = filter (keeps attribute regex) jobs
  /\ forall part,
      filter_jobs (filter part jobs) attribute regex
      = inr (filter (keeps attribute regex) (filter part jobs)).
Proof.
  unfold filter_jobs, keeps.
  destruct (negb (PyStr.truthy attribute) || negb (PyStr.truthy regex)).
  - intros [= <-]. split; [|intros part]; now rewrite filter_all.
  - intros H. pose proof (filter_loop_returns _ _ _ _ _ H) as Hok. split.
    + rewrite (filter_loop_no_raise _ _ _ Hok) in H. now injection H as <-.
    + intros part.
      now rewrite (filter_loop_no_raise _ _ _
                     (Forall_filter_part _ part _ Hok)).
Qed.

(** X4.  Whenever [filter_jobs] returns, on any attribute and pattern, its
    result is a selection of the given jobs in their order: nothing is
    added, repeated or moved. *)
Theorem filter_jobs_selects
        (jobs result : list SlurmJob) (attribute regex : string) :
  filter_jobs jobs attribute regex = inr result ->
  result = filter (keeps attribute regex) jobs
  /\ List.length result <= List.length jobs
  /\ forall job, In job result -> In job jobs.
Proof.
  intros H. apply filter_jobs_keeps in H as [-> _].
  split; [reflexivity|]. split.
  - apply filter_length_le.
  - intros job Hin. now apply filter_In in Hin.
Qed.

(** X5.  Filtering is idempotent: when [filter_jobs] returns, applying it
    again to its result with the same attribute and pattern returns that
    result. *)
Theorem filter_jobs_idempotent
        (jobs result : list SlurmJob) (attribute regex : string) :
  filter_jobs jobs attribute regex = inr result ->
  filter_jobs result attribute regex = inr result.
Proof.
  intros H. apply filter_jobs_keeps in H as [-> Hpart].
  now rewrite Hpart, filter_twice.
Qed.

(** X6.  Two filters commute: when each returns on the given jobs, applying
    the second to the result of the first gives the same as applying the
    first to the result of the second. *)
Theorem filter_jobs_commute
        (jobs first second : list SlurmJob)
        (attribute1 regex1 attribute2 regex2 : string) :
  filter_jobs jobs attribute1 regex1 = inr first ->
  filter_jobs jobs attribute2 regex2 = inr second ->
  filter_jobs first attribute2 regex2 = filter_jobs second attribute1 regex1.
Proof.
  intros H1 H2.
  apply filter_jobs_keeps in H1 as [-> Hpart1].
  apply filter_jobs_keeps in H2 as [-> Hpart2].
  now rewrite Hpart1, Hpart2, filter_swap.
Qed.

Lemma filter_loop_bad_pattern (attribute regex : string) :
  is_field attribute = true ->
  re_compiles regex = false ->
  forall jobs filtered_jobs,
    filter_loop attribute regex jobs filtered_jobs
    = if existsb (has_value attribute) jobs
      then inl (re_compile_exn regex) else inr filtered_jobs.
Proof.
  intros Hfield Hre jobs.
  induction jobs as [|job rest IH]; intros acc; [reflexivity|].
  cbn [filter_loop existsb]. unfold getattr, has_value.
  destruct (field_in_instance_dict attribute job Hfield) as [s Hs].
  rewrite Hs. cbn [truth_of].
  destruct (PyStr.truthy s); cbn [orb]; [|apply IH].
  unfold re_search. now rewrite Hre.
Qed.

(** X7.  On a field and with a non-empty pattern that cannot be compiled,
    [filter_jobs] raises the exception of the compilation of the pattern
    exactly when some job has a non-empty value of the field; when no job
    has one (so on the empty list) the pattern is never looked at and the
    result is empty. *)
Theorem filter_jobs_bad_pattern_short_circuit
        (jobs : list SlurmJob) (attribute regex : string) :
  is_field attribute = true ->
  PyStr.truthy regex = true ->
  re_compiles regex = false ->
  filter_jobs jobs attribute regex
  = if existsb (has_value attribute) jobs
    then inl (re_compile_exn regex) else inr [].
Proof.
  intros Hfield Hregex Hre. unfold filter_jobs.
  assert (Hattr : PyStr.truthy attribute = true).
  { destruct attribute; [discriminate Hfield|reflexivity]. }
  rewrite Hattr, Hregex. cbn [negb orb].
  now apply filter_loop_bad_pattern.
Qed.

(** X8.  On a field, [filter_jobs] raises only when the pattern cannot be
    compiled, and what it raises is then the exception of that
    compilation: reading the field and searching in its value never
    raise. *)
Theorem filter_jobs_field_errors
        (jobs : list SlurmJob) (attribute regex : string) (e : exn) :
  is_field attribute = true ->
  filter_jobs jobs attribute regex = inl e ->
  re_compiles regex = false /\ e = re_compile_exn regex.
Proof.
  intros Hfield. unfold filter_jobs.
  destruct (negb (PyStr.truthy attribute) || negb (PyStr.truthy regex));
    [discriminate|].
  destruct (re_compiles regex) eqn:Hre.
  - now rewrite filter_loop_field.
  - rewrite (filter_loop_bad_pattern attribute regex Hfield Hre).
    destruct (existsb _ jobs); [|discriminate].
    intros [= <-]. now split.
Qed.

(** X9.  On a name that is no field but an attribute the class provides
    with a value that is no string, and with a pattern that compiles,
    [filter_jobs] on a non-empty list raises [TypeError] when the value is
    true and returns the empty list when it is false. *)
Theorem filter_jobs_object_attribute
        (jobs : list SlurmJob) (attribute regex : string) (truth : bool) :
  jobs <> [] ->
  PyStr.truthy attribute = true ->
  PyStr.truthy regex = true ->
  is_field attribute = false ->
  class_attr attribute = Some (PyObj truth) ->
  re_compiles regex = true ->
  filter_jobs jobs attribute regex
  = if truth then inl TypeError else inr [].
Proof.
  intros Hjobs Hattr Hregex Hfield Hclass Hre. unfold filter_jobs.
  rewrite Hattr, Hregex. cbn [negb orb].
  assert (Hget : forall job, getattr job attribute = inr (PyObj truth)).
  { intros job. unfold getattr.
    now rewrite (other_name_not_in_instance_dict attribute job Hfield),
      Hclass. }
  destruct truth.
  - destruct jobs as [|job rest]; [contradiction|].
    cbn [filter_loop]. rewrite Hget. cbn [truth_of].
    unfold re_search. now rewrite Hre.
  - clear Hjobs. induction jobs as [|job rest IH]; [reflexivity|].
    cbn [filter_loop]. rewrite Hget. cbn [truth_of]. exact IH.
Qed.

End FilterMore.

Lemma filter_jobs_field_errors_witness :
  @re_compiles plain_re "(" = false
  /\ ReError = @re_compile_exn plain_re "(".
Proof.
  exact (@filter_jobs_field_errors plain_re sample_object_model
           [job_named "1" "alpha"] "name" "(" ReError eq_refl eq_refl).
Defined.

Lemma filter_jobs_selects_witness :
  [job_named "1" "alpha"; job_named "3" "alphabet"]
  = filter (@keeps plain_re sample_object_model "name" "alpha")
      [job_named "1" "alpha"; job_named "2" "beta"; job_named "3" "alphabet"]
  /\ 2 <= 3
  /\ forall job,
      In job [job_named "1" "alpha"; job_named "3" "alphabet"] ->
      In job [job_named "1" "alpha"; job_named "2" "beta";
              job_named "3" "alphabet"].
Proof.
  exact (@filter_jobs_selects plain_re sample_object_model
           [job_named "1" "alpha"; job_named "2" "beta";
            job_named "3" "alphabet"]
           [job_named "1" "alpha"; job_named "3" "alphabet"]
           "name" "alpha" eq_refl).
Defined.

Lemma filter_jobs_idempotent_witness :
  @filter_jobs plain_re sample_object_model
     [job_named "1" "alpha"; job_named "3" "alphabet"] "name" "alpha"
  = inr [job_named "1" "alpha"; job_named "3" "alphabet"].
Proof.
  exact (@filter_jobs_idempotent plain_re sample_object_model
           [job_named "1" "alpha"; job_named "2" "beta";
            job_named "3" "alphabet"]
           [job_named "1" "alpha"; job_named "3" "alphabet"]
           "name" "alpha" eq_refl).
Defined.

Lemma filter_jobs_commute_witness :
  @filter_jobs plain_re sample_object_model
     [job_named "1" "alpha"; job_named "3" "alphabet"] "job_id" "3"
  = @filter_jobs plain_re sample_object_model
      [job_named "3" "alphabet"] "name" "alpha".
Proof.
  exact (@filter_jobs_commute plain_re sample_object_model
           [job_named "1" "alpha"; job_named "2" "beta";
            job_named "3" "alphabet"]
           [job_named "1" "alpha"; job_named "3" "alphabet"]
           [job_named "3" "alphabet"]
           "name" "alpha" "job_id" "3" eq_refl eq_refl).
Defined.

Lemma filter_jobs_bad_pattern_short_circuit_witness :
  @filter_jobs plain_re sample_object_model
     [job_named "1" ""; job_named "2" ""] "name" "("
  = inr [].
Proof.
  exact (@filter_jobs_bad_pattern_short_circuit plain_re sample_object_model
           [job_named "1" ""; job_named "2" ""] "name" "("
           eq_refl eq_refl eq_refl).
Defined.

Lemma filter_jobs_object_attribute_witness :
  @filter_jobs plain_re sample_object_model [job_named "1" "alpha"]
               "__str__" "alpha"
  = inl TypeError
  /\ @filter_jobs plain_re sample_object_model [job_named "1" "alpha"]
                  "__hash__" "alpha"
     = inr [].
Proof.
  split.
  - apply (@filter_jobs_object_attribute plain_re sample_object_model
             [job_named "1" "alpha"] "__str__" "alpha" true);
      [discriminate | reflexivity ..].
  - apply (@filter_jobs_object_attribute plain_re sample_object_model
             [job_named "1" "alpha"] "__hash__" "alpha" false);
      [discriminate | reflexivity ..].
Defined.

(** ** What a refresh stores *)

Lemma filter_jobs_nil
      {regex_engine : Regex} {object_model : ObjectModel}
      (attribute regex : string) :
  filter_jobs [] attribute regex = inr [].
Proof.
  unfold filter_jobs.
  now destruct (negb (PyStr.truthy attribute) || negb (PyStr.truthy regex)).
Qed.

Lemma blank_line_malformed (line : string) :
  PyStr.truthy line = true ->
  PyStr.forall_chars PyStr.isspace_char line = true ->
  parse_line line = Malformed.
Proof.
  intros Hne Hblank. apply parse_line_malformed; [exact Hne|].
  unfold PyStr.split. rewrite (split_from_blank line Hblank). simpl. lia.
Qed.

Section Stored.

Context {host : Host} {regex_engine : Regex} {object_model : ObjectModel}.

(** X10.  When the queue answers with no line but empty ones (the empty
    text, or line feeds only), the refresh returns with the empty snapshot,
    whatever the attribute and the pattern of the filter are. *)
Theorem update_empty_answer
        (attribute regex queue_info : string) (w : World) :
  query_answer w = inr queue_info ->
  PyStr.forall_chars (Ascii.eqb PyStr.LF) queue_info = true ->
  exists w', update attribute regex w = (inr tt, w') /\ jobs w' = [].
Proof.
  intros Hq Hlf. rewrite update_spec. unfold query_answer in Hq.
  destruct os_getlogin as [e|user]; [discriminate Hq|].
  cbv zeta. rewrite Hq.
  destruct (empty_lines_give_nothing (lines_of queue_info)) as [Hrec Hbad].
  { intros line. now apply lines_of_line_feeds. }
  rewrite Hbad, Hrec, filter_jobs_nil. eexists. split; reflexivity.
Qed.

(** X11.  A line that is not empty but holds only whitespace is not
    skipped: a queue answer with such a line makes the refresh call
    [breakpoint()] and raise, [SlurmQueueReadError] when that call returns
    and the exception of that call when it raises. *)
Theorem update_blank_line_raises
        (attribute regex queue_info line : string) (w : World) :
  query_answer w = inr queue_info ->
  In line (lines_of queue_info) ->
  PyStr.truthy line = true ->
  PyStr.forall_chars PyStr.isspace_char line = true ->
  exists w',
    update attribute regex w
    = (inl match breakpointhook with
           | Some e => e
           | None => SlurmQueueReadError read_error_message
           end, w').
Proof.
  intros Hq Hin Hne Hblank. rewrite update_spec. unfold query_answer in Hq.
  destruct os_getlogin as [e|user]; [discriminate Hq|].
  cbv zeta. rewrite Hq.
  rewrite (has_malformed_in line _ Hin (blank_line_malformed line Hne Hblank)).
  eexists. reflexivity.
Qed.

(** X12.  Whatever a refresh leaves in the snapshot, when it returns and
    when it raises, is made of well-formed records: every field is a
    non-empty text, the first ten hold no whitespace, and node_list holds
    none either unless it is the fixed text "Nodes N. Avail.". *)
Theorem update_stores_well_formed_records
        (attribute regex : string) (w : World) (job : SlurmJob) :
  In job (jobs (snd (update attribute regex w))) ->
  well_formed_record job = true.
Proof.
  rewrite update_spec.
  destruct os_getlogin as [e|user]; [intros []|]. cbv zeta.
  destruct (check_output (squeue_argv user) (trace w)) as [e|queue_info];
    [intros []|].
  destruct (has_malformed (lines_of queue_info));
    [apply records_well_formed|].
  destruct (filter_jobs _ attribute regex) as [e|filtered] eqn:Hf;
    [apply records_well_formed|].
  cbn [snd jobs]. intros Hin. apply filter_jobs_keeps in Hf as [-> _].
  apply filter_In in Hin as [Hin _]. now apply records_well_formed in Hin.
Qed.

(** X13.  A refresh without a filter that returns has stored one record
    for each non-empty line of the answer, in the order of the lines. *)
Theorem update_one_record_per_line (queue_info : string) (w w' : World) :
  query_answer w = inr queue_info ->
  update "" "" w = (inr tt, w') ->
  map Parsed (jobs w')
  = map parse_line (filter PyStr.truthy (lines_of queue_info))
  /\ List.length (jobs w')
     = List.length (filter PyStr.truthy (lines_of queue_info)).
Proof.
  intros Hq. rewrite update_spec. unfold query_answer in Hq.
  destruct os_getlogin as [e|user]; [discriminate Hq|].
  cbv zeta. rewrite Hq.
  destruct (has_malformed (lines_of queue_info)) eqn:Hbad; [discriminate|].
  rewrite filter_jobs_no_filter. intros [= <-]. cbn [jobs].
  pose proof (records_follow_lines _ Hbad) as Hmap.
  split; [exact Hmap|].
  apply (f_equal (@List.length parsed_line)) in Hmap.
  now rewrite !length_map in Hmap.
Qed.

End Stored.

Lemma update_empty_answer_witness :
  exists w',
    @update (host_answering (inr (text_of_lines [""; ""; ""]))) plain_re
            sample_object_model "owner" "(" empty_world
    = (inr tt, w')
    /\ jobs w' = [].
Proof.
  exact (@update_empty_answer
           (host_answering (inr (text_of_lines [""; ""; ""]))) plain_re
           sample_object_model "owner" "(" (text_of_lines [""; ""; ""])
           empty_world eq_refl eq_refl).
Defined.

Lemma update_blank_line_raises_witness :
  exists w',
    @update (host_answering (inr (text_of_lines [good_line; "   "])))
            plain_re sample_object_model "" "" empty_world
    = (inl (SlurmQueueReadError read_error_message), w').
Proof.
  apply (@update_blank_line_raises
           (host_answering (inr (text_of_lines [good_line; "   "])))
           plain_re sample_object_model "" ""
           (text_of_lines [good_line; "   "]) "   " empty_world).
  - reflexivity.
  - vm_compute. right. left. reflexivity.
  - reflexivity.
  - reflexivity.
Defined.

Lemma update_stores_well_formed_records_witness :
  well_formed_record good_job = true.
Proof.
  exact (@update_stores_well_formed_records
           (host_answering (inr good_line)) plain_re sample_object_model
           "" "" empty_world good_job (or_introl eq_refl)).
Defined.

Lemma update_one_record_per_line_witness :
  map Parsed [good_job; good_job]
  = map parse_line (filter PyStr.truthy [good_line; ""; good_line])
  /\ 2 = List.length (filter PyStr.truthy [good_line; ""; good_line]).
Proof.
  exact (@update_one_record_per_line
           (host_answering (inr (text_of_lines [good_line; ""; good_line])))
           plain_re sample_object_model
           (text_of_lines [good_line; ""; good_line]) empty_world
           {| jobs := [good_job; good_job]; trace := [squeue_argv "user"] |}
           eq_refl eq_refl).
Defined.

(** * Properties of [SlurmJob.__str__] *)

Lemma str_app_assoc (s t u : string) : ((s ++ t) ++ u = s ++ (t ++ u))%string.
Proof. induction s as [|c s IH]; simpl; congruence. Qed.

Lemma str_app_nil_r (s : string) : (s ++ "" = s)%string.
Proof. induction s as [|c s IH]; simpl; congruence. Qed.

Lemma str_length_app (s t : string) :
  String.length (s ++ t) = String.length s + String.length t.
Proof. induction s as [|c s IH]; simpl; congruence. Qed.

Lemma length_spaces (n : nat) : String.length (spaces n) = n.
Proof. induction n as [|n IH]; simpl; congruence. Qed.

Lemma length_ljust (w : nat) (s : string) :
  String.length (ljust w s) = Nat.max w (String.length s).
Proof. unfold ljust. rewrite str_length_app, length_spaces. lia. Qed.

Lemma length_format_fields (fields : list (nat * string)) :
  String.length (format_fields fields) = total_width fields.
Proof.
  induction fields as [|[w s] rest IH]; simpl; [reflexivity|].
  now rewrite str_length_app, length_ljust, IH.
Qed.

(** X14.  A job is shown on at least 157 characters, the sum of the column
    widths; a value wider than its column is shown whole and makes the row
    longer by the excess, so the row has exactly 157 characters when every
    shown value is within its width. *)
Theorem SlurmJob_str_length (job : SlurmJob) :
  String.length (SlurmJob_str job) = total_width (columns job)
  /\ 157 <= String.length (SlurmJob_str job)
  /\ (forallb (fun field => String.length (snd field) <=? fst field)%nat
              (columns job) = true ->
      String.length (SlurmJob_str job) = 157).
Proof.
  unfold SlurmJob_str. rewrite length_format_fields.
  split; [reflexivity|]. unfold columns.
  cbn [total_width forallb fst snd map nth].
  split; [lia|].
  rewrite !andb_true_iff, !Nat.leb_le. lia.
Qed.

Lemma SlurmJob_str_length_witness :
  String.length (SlurmJob_str good_job) = 157.
Proof.
  exact (proj2 (proj2 (SlurmJob_str_length good_job)) eq_refl).
Defined.

(** ** The time columns *)

Lemma split_on_from_no_sep (sep : ascii) (s cur : string) :
  PyStr.exists_char (Ascii.eqb sep) s = false ->
  PyStr.split_on_from sep cur s = [(cur ++ s)%string].
Proof.
  revert cur. induction s as [|c s IH]; intros cur; simpl.
  - now rewrite str_app_nil_r.
  - intros H. apply orb_false_iff in H as [Hc Hs].
    rewrite Ascii.eqb_sym, Hc, (IH _ Hs), str_app_assoc. reflexivity.
Qed.

Lemma split_on_from_last_sep (sep : ascii) (pre rest cur : string) :
  PyStr.exists_char (Ascii.eqb sep) rest = false ->
  exists pieces,
    PyStr.split_on_from sep cur (pre ++ String sep rest)
    = pieces ++ [rest].
Proof.
  intros Hrest. revert cur.
  induction pre as [|c pre IH]; intros cur; simpl.
  - rewrite Ascii.eqb_refl, (split_on_from_no_sep sep rest "" Hrest).
    now exists [cur].
  - destruct (Ascii.eqb c sep).
    + destruct (IH ""%string) as [pieces ->]. now exists (cur :: pieces).
    + apply IH.
Qed.

(** X15.  The time shown is what follows the last hyphen of the time: a
    time without a hyphen is shown whole, and of a date such as
    year-month-day the year and the month are both dropped. *)
Theorem last_piece_after_last_hyphen (pre rest : string) :
  PyStr.exists_char (Ascii.eqb HYPHEN) rest = false ->
  last_piece rest = rest
  /\ last_piece (pre ++ String HYPHEN rest) = rest.
Proof.
  intros Hrest. unfold last_piece, PyStr.split_on. split.
  - now rewrite (split_on_from_no_sep HYPHEN rest "" Hrest).
  - destruct (split_on_from_last_sep HYPHEN pre rest "" Hrest) as [l ->].
    apply last_last.
Qed.

Lemma last_piece_after_last_hyphen_witness :
  last_piece "15T10:30:00" = "15T10:30:00"
  /\ last_piece "2024-03-15T10:30:00" = "15T10:30:00".
Proof.
  exact (last_piece_after_last_hyphen "2024-03" "15T10:30:00" eq_refl).
Defined.

(** ** Reading a row back *)

Lemma split_from_run (t rest cur : string) :
  PyStr.exists_char PyStr.isspace_char t = false ->
  PyStr.split_from cur (t ++ rest) = PyStr.split_from (cur ++ t) rest.
Proof.
  revert cur. induction t as [|c t IH]; intros cur; simpl.
  - now rewrite str_app_nil_r.
  - intros H. apply orb_false_iff in H as [Hc Ht].
    now rewrite Hc, (IH _ Ht), str_app_assoc.
Qed.

Lemma split_from_spaces (n : nat) (rest : string) :
  PyStr.split_from "" (spaces n ++ rest) = PyStr.split_from "" rest.
Proof. induction n as [|n IH]; simpl; auto. Qed.

Lemma split_format_fields (fields : list (nat * string)) :
  forallb fits_column fields = true ->
  PyStr.split_from "" (format_fields fields) = map snd fields.
Proof.
  induction fields as [|[w s] rest IH]; [reflexivity|].
  cbn [forallb format_fields map snd]. intros H.
  apply andb_true_iff in H as [Hfit Hrest].
  unfold fits_column, is_token in Hfit. cbn [fst snd] in Hfit.
  apply andb_true_iff in Hfit as [Htok Hlen].
  apply andb_true_iff in Htok as [Hne Hws].
  apply negb_true_iff in Hws. apply Nat.ltb_lt in Hlen.
  unfold ljust.
  destruct (w - String.length s) as [|k] eqn:Hpad; [lia|].
  rewrite str_app_assoc, (split_from_run s _ "" Hws).
  cbn [spaces append PyStr.split_from].
  change (PyStr.isspace_char " ") with true. cbv iota.
  rewrite Hne, split_from_spaces, (IH Hrest). reflexivity.
Qed.

(** X16.  When every shown value is a token strictly narrower than its
    column, splitting the row of a job on whitespace gives the shown values
    back, in the order of the row: job_id, name, partition, time_used, the
    three trimmed times, state, node_list, then array_job_id and
    array_task_id. *)
Theorem SlurmJob_str_columns (job : SlurmJob) :
  forallb fits_column (columns job) = true ->
  PyStr.split (SlurmJob_str job)
  = [ job_id job; name job; partition job; time_used job;
      last_piece (submit_time job); last_piece (start_time job);
      last_piece (end_time job); state job; node_list job;
      array_job_id job; array_task_id job ].
Proof.
  intros H. unfold PyStr.split, SlurmJob_str.
  now rewrite (split_format_fields _ H).
Qed.

Lemma SlurmJob_str_columns_witness :
  PyStr.split (SlurmJob_str good_job)
  = [ "123"; "job1"; "part"; "1:00"; "01"; "02"; "03"; "PD"; "node1";
      "123"; "0" ].
Proof.
  exact (SlurmJob_str_columns good_job eq_refl).
Defined.

(** * Properties of the handlers of [app.py] *)

Lemma bind_returns {A B} (c : App.AM A) (k : A -> App.AM B)
      (s s' : App.State) (b : B) :
  App.bind c k s = (inr b, s') ->
  exists a s0, c s = (inr a, s0) /\ k a s0 = (inr b, s').
Proof.
  unfold App.bind. destruct (c s) as [[e|a] s0]; [discriminate|].
  intros H. now exists a, s0.
Qed.

Lemma for_each_add_items (js : list SlurmJob) (s : App.State) :
  App.for_each App.display_add_item js s
  = (inr tt,
     {| App.settings := App.settings s;
        App.job_display := App.job_display s ++ js;
        App.world := App.world s |}).
Proof.
  revert s. induction js as [|j js IH]; intros s; simpl.
  - rewrite app_nil_r. now destruct s.
  - unfold App.bind. simpl. rewrite IH. simpl. now rewrite <- app_assoc.
Qed.

Section Handlers.

Context {host : Host} {regex_engine : Regex} {object_model : ObjectModel}.

(** What [update_jobs] does, by the outcome of the refresh. *)
Lemma update_jobs_spec (s : App.State) :
  App.update_jobs s
  = match update (job_filter_attribute (App.settings s))
                 (job_filter_regex (App.settings s)) (App.world s) with
    | (inl e, w') =>
        (inl (App.Queue e),
         {| App.settings := App.settings s; App.job_display := [];
            App.world := w' |})
    | (inr _, w') =>
        (inr tt,
         {| App.settings := App.settings s;
            App.job_display := slurm_banner_fake_job :: jobs w';
            App.world := w' |})
    end.
Proof.
  unfold App.update_jobs, App.bind, App.display_clear, App.get_settings,
    App.on_queue. simpl.
  destruct (update _ _ (App.world s)) as [[e|[]] w']; [reflexivity|].
  simpl. now rewrite for_each_add_items.
Qed.

Lemma update_jobs_returns (s s' : App.State) :
  App.update_jobs s = (inr tt, s') ->
  App.job_display s' = slurm_banner_fake_job :: jobs (App.world s')
  /\ App.settings s' = App.settings s.
Proof.
  rewrite update_jobs_spec.
  destruct (update _ _ (App.world s)) as [[e|[]] w']; [discriminate|].
  intros [= <-]. now split.
Qed.

Lemma update_jobs_settings (s : App.State) :
  App.settings (snd (App.update_jobs s)) = App.settings s.
Proof.
  rewrite update_jobs_spec.
  now destruct (update _ _ (App.world s)) as [[e|[]] w'].
Qed.

Lemma on_queue_settings {A} (c : M A) (s : App.State) :
  App.settings (snd (App.on_queue c s)) = App.settings s.
Proof.
  unfold App.on_queue. now destruct (c (App.world s)) as [[e|a] w'].
Qed.

(** A handler that ends with [update_jobs] and returns. *)
Lemma ends_with_update_jobs {A} (c : App.AM A) (s s' : App.State) :
  App.bind c (fun _ => App.update_jobs) s = (inr tt, s') ->
  App.job_display s' = slurm_banner_fake_job :: jobs (App.world s').
Proof.
  intros H. apply bind_returns in H as (a & s0 & _ & H).
  now apply update_jobs_returns in H.
Qed.

Lemma on_selection_returns (command : SlurmJob -> M unit)
      (selection : option SlurmJob) (s s' : App.State) :
  App.on_selection command selection s = (inr tt, s') ->
  App.job_display s' = slurm_banner_fake_job :: jobs (App.world s').
Proof.
  destruct selection as [job|]; simpl; [|discriminate].
  apply ends_with_update_jobs.
Qed.

Lemma set_filter_regex_returns (filter_name : option string) (text : string)
      (s s' : App.State) :
  App.set_filter_regex filter_name text s = (inr tt, s') ->
  App.job_display s' = slurm_banner_fake_job :: jobs (App.world s').
Proof.
  unfold App.set_filter_regex. intros H.
  apply bind_returns in H as (a & s0 & _ & H).
  apply bind_returns in H as (a1 & s1 & _ & H).
  now apply ends_with_update_jobs in H.
Qed.

(** X17.  After any key or button whose handler returns, the job menu
    shows the banner row followed by the jobs of the snapshot, in their
    order; so the menu is never empty and its first row is never a job. *)
Theorem handled_event_shows_snapshot (ev : App.event) (s s' : App.State) :
  App.handle ev s = (inr tt, s') ->
  App.job_display s' = slurm_banner_fake_job :: jobs (App.world s').
Proof.
  destruct ev; cbn [App.handle];
    try apply on_selection_returns;
    try apply set_filter_regex_returns;
    try (intros H; now apply update_jobs_returns in H).
  - unfold App.kill_all_jobs. intros H.
    apply bind_returns in H as (js & s0 & _ & H).
    now apply ends_with_update_jobs in H.
  - unfold App.hold_all_jobs. intros H.
    apply bind_returns in H as (js & s0 & _ & H).
    now apply ends_with_update_jobs in H.
  - unfold App.release_all_jobs. intros H.
    apply bind_returns in H as (js & s0 & _ & H).
    now apply ends_with_update_jobs in H.
Qed.

(** X18.  When the refresh of [update_jobs] raises, the job menu is left
    empty (it was cleared first) and the filter settings are as before. *)
Theorem update_jobs_failure_empties_menu
        (s s' : App.State) (e : App.app_exn) :
  App.update_jobs s = (inl e, s') ->
  App.job_display s' = [] /\ App.settings s' = App.settings s.
Proof.
  rewrite update_jobs_spec.
  destruct (update _ _ (App.world s)) as [[e0|[]] w']; [|discriminate].
  intros [= _ <-]. now split.
Qed.

End Handlers.

Lemma menu_lookup_is_field (key attribute : string) :
  dict_get key NAMES_TO_JOB_ATTRIBUTES = Some attribute ->
  is_field attribute = true.
Proof.
  unfold NAMES_TO_JOB_ATTRIBUTES. cbn [dict_get].
  repeat (destruct (String.eqb key _); [now intros [= <-]|]).
  discriminate.
Qed.

Section HandlersMore.

Context {host : Host} {regex_engine : Regex} {object_model : ObjectModel}.

Lemma trace_after_update (attribute regex : string) (w : World) :
  trace (snd (update attribute regex w))
  = match os_getlogin with
    | inl _ => trace w
    | inr user => trace w ++ [squeue_argv user]
    end.
Proof.
  rewrite update_spec.
  destruct os_getlogin as [e|user]; [reflexivity|]. cbv zeta.
  destruct (check_output (squeue_argv user) (trace w)) as [e|queue_info];
    [reflexivity|].
  destruct (has_malformed (lines_of queue_info)); [reflexivity|].
  destruct (filter_jobs _ attribute regex); reflexivity.
Qed.

Lemma trace_after_update_jobs (s : App.State) :
  trace (App.world (snd (App.update_jobs s)))
  = match os_getlogin with
    | inl _ => trace (App.world s)
    | inr user => trace (App.world s) ++ [squeue_argv user]
    end.
Proof.
  rewrite update_jobs_spec.
  rewrite <- (trace_after_update (job_filter_attribute (App.settings s))
                                 (job_filter_regex (App.settings s))).
  now destruct (update _ _ (App.world s)) as [[e|[]] w'].
Qed.

(** The handlers keep the settings, but for [set_filter_attribute] and
    [set_filter_regex]. *)
Lemma bind_keeps_settings {A B} (c : App.AM A) (k : A -> App.AM B) :
  (forall s, App.settings (snd (c s)) = App.settings s) ->
  (forall a s, App.settings (snd (k a s)) = App.settings s) ->
  forall s, App.settings (snd (App.bind c k s)) = App.settings s.
Proof.
  intros Hc Hk s. unfold App.bind. specialize (Hc s).
  destruct (c s) as [[e|a] s0]; [exact Hc|].
  rewrite Hk. exact Hc.
Qed.

Lemma on_selection_settings (command : SlurmJob -> M unit)
      (selection : option SlurmJob) (s : App.State) :
  App.settings (snd (App.on_selection command selection s)) = App.settings s.
Proof.
  destruct selection as [job|]; [|reflexivity]. cbn [App.on_selection].
  apply bind_keeps_settings.
  - apply on_queue_settings.
  - intros _. apply update_jobs_settings.
Qed.

Lemma on_all_jobs_settings (command : SlurmJob -> M unit) (s : App.State) :
  App.settings
    (snd (App.bind (App.on_queue get_jobs)
            (fun js =>
               App.bind (App.on_queue (for_each_job command js))
                        (fun _ => App.update_jobs)) s))
  = App.settings s.
Proof.
  apply bind_keeps_settings; [apply on_queue_settings|]. intros js.
  apply bind_keeps_settings; [apply on_queue_settings|]. intros _.
  apply update_jobs_settings.
Qed.

Lemma set_filter_attribute_field (filter_name : option string)
      (s : App.State) :
  is_field (job_filter_attribute (App.settings s)) = true ->
  is_field (job_filter_attribute
              (App.settings (snd (App.set_filter_attribute filter_name s))))
  = true.
Proof.
  intros Hs. unfold App.set_filter_attribute.
  destruct filter_name as [key|]; [|exact Hs].
  destruct (dict_get key NAMES_TO_JOB_ATTRIBUTES) as [attribute|] eqn:Hkey;
    [|exact Hs].
  unfold App.bind, App.get_settings, App.set_settings. cbn [fst snd].
  rewrite update_jobs_settings. cbn [App.settings job_filter_attribute].
  now apply (menu_lookup_is_field key).
Qed.

(** X19.  The attribute of the filter settings stays a field name: if it
    is one before a key or button is handled, it is one after, whether the
    handler returns or raises, and whatever the widgets hold. *)
Theorem handled_event_keeps_field_attribute (ev : App.event) (s : App.State) :
  is_field (job_filter_attribute (App.settings s)) = true ->
  is_field (job_filter_attribute (App.settings (snd (App.handle ev s))))
  = true.
Proof.
  intros Hs.
  destruct ev; cbn [App.handle];
    unfold App.hold_job, App.kill_job, App.release_job,
      App.kill_all_jobs, App.hold_all_jobs, App.release_all_jobs;
    rewrite ?on_selection_settings, ?update_jobs_settings,
      ?on_all_jobs_settings; try exact Hs.
  unfold App.set_filter_regex, App.bind at 1.
  pose proof (set_filter_attribute_field filter_name s Hs) as Hattr.
  destruct (App.set_filter_attribute filter_name s) as [[e|[]] s0];
    [exact Hattr|].
  cbn [snd] in Hattr.
  unfold App.bind, App.get_settings, App.set_settings. cbn [fst snd].
  rewrite update_jobs_settings. exact Hattr.
Qed.

End HandlersMore.

Lemma handled_event_shows_snapshot_witness :
  [slurm_banner_fake_job; good_job]
  = slurm_banner_fake_job :: [good_job].
Proof.
  exact (@handled_event_shows_snapshot
           (host_answering (inr good_line)) plain_re sample_object_model
           (App.Key_k (Some slurm_banner_fake_job))
           {| App.settings := mkSquidApp "name" "";
              App.job_display := [slurm_banner_fake_job];
              App.world := empty_world |}
           {| App.settings := mkSquidApp "name" "";
              App.job_display := [slurm_banner_fake_job; good_job];
              App.world :=
                {| jobs := [good_job]; trace := [squeue_argv "user"] |} |}
           eq_refl).
Defined.

Lemma update_jobs_failure_empties_menu_witness :
  @nil SlurmJob = [] /\ mkSquidApp "name" "" = mkSquidApp "name" "".
Proof.
  exact (@update_jobs_failure_empties_menu
           (host_answering (inl CalledProcessError)) plain_re
           sample_object_model
           {| App.settings := mkSquidApp "name" "";
              App.job_display := [slurm_banner_fake_job; good_job];
              App.world := empty_world |}
           {| App.settings := mkSquidApp "name" "";
              App.job_display := [];
              App.world := {| jobs := []; trace := [squeue_argv "user"] |} |}
           (App.Queue CalledProcessError) eq_refl).
Defined.

Lemma handled_event_keeps_field_attribute_witness :
  is_field "state" = true.
Proof.
  exact (@handled_event_keeps_field_attribute
           (host_answering (inr good_line)) plain_re sample_object_model
           (App.Enter_in_filter_regex (Some "State") "PD")
           {| App.settings := mkSquidApp "name" "";
              App.job_display := [];
              App.world := empty_world |}
           eq_refl).
Defined.

(** ** The commands the handlers spawn *)

Section Commands.

Context {host : Host}.

Variable command : SlurmJob -> M unit.
Variable argv_of : SlurmJob -> argv.
Hypothesis command_is_guarded :
  forall job,
    command job
    = if has_digit_id job then subprocess_run (argv_of job) else ret tt.

Lemma for_each_command_returns (js : list SlurmJob) :
  (forall job h,
      In job js -> has_digit_id job = true -> run (argv_of job) h = None) ->
  forall w,
    for_each_job command js w
    = (inr tt,
       {| jobs := jobs w;
          trace := trace w ++ map argv_of (filter has_digit_id js) |}).
Proof.
  unfold for_each_job.
  induction js as [|job rest IH]; intros Hrun w; cbn [for_each filter].
  - cbn [map]. rewrite app_nil_r. now destruct w.
  - unfold bind at 1. rewrite command_is_guarded.
    destruct (has_digit_id job) eqn:Hjob.
    + unfold subprocess_run. rewrite (Hrun job _ (or_introl eq_refl) Hjob).
      rewrite IH by (intros j h Hj; apply Hrun; now right).
      cbn [jobs trace map]. now rewrite <- app_assoc.
    + unfold ret at 1. apply IH. intros j h Hj. apply Hrun. now right.
Qed.

Lemma for_each_command_raises
      (before after : list SlurmJob) (job : SlurmJob) (e : exn) :
  (forall j h,
      In j before -> has_digit_id j = true -> run (argv_of j) h = None) ->
  has_digit_id job = true ->
  (forall h, run (argv_of job) h = Some e) ->
  forall w,
    for_each_job command (before ++ job :: after) w
    = (inl e,
       {| jobs := jobs w;
          trace := trace w ++ map argv_of (filter has_digit_id before)
                           ++ [argv_of job] |}).
Proof.
  intros Hbefore Hjob Hrun. unfold for_each_job.
  induction before as [|j rest IH]; intros w; cbn [app for_each filter].
  - unfold bind. rewrite command_is_guarded, Hjob.
    unfold subprocess_run. now rewrite Hrun.
  - unfold bind at 1. rewrite command_is_guarded.
    destruct (has_digit_id j) eqn:Hj.
    + unfold subprocess_run. rewrite (Hbefore j _ (or_introl eq_refl) Hj).
      rewrite IH by (intros j' h Hj'; apply Hbefore; now right).
      cbn [jobs trace map app]. now rewrite <- app_assoc.
    + unfold ret at 1. apply IH. intros j' h Hj'. apply Hbefore. now right.
Qed.

End Commands.

Section Spawned.

Context {host : Host} {regex_engine : Regex} {object_model : ObjectModel}.

(** The handler of a button on all jobs, for any guarded command. *)
Lemma on_all_jobs_returns
      (command : SlurmJob -> M unit) (argv_of : SlurmJob -> argv)
      (user : string) (s : App.State) :
  (forall job,
      command job
      = if has_digit_id job then subprocess_run (argv_of job) else ret tt) ->
  os_getlogin = inr user ->
  (forall a h, run a h = None) ->
  trace (App.world
           (snd (App.bind (App.on_queue get_jobs)
                   (fun js =>
                      App.bind (App.on_queue (for_each_job command js))
                               (fun _ => App.update_jobs)) s)))
  = trace (App.world s)
    ++ map argv_of (filter has_digit_id (jobs (App.world s)))
    ++ [squeue_argv user].
Proof.
  intros Hcmd Hlogin Hrun.
  unfold App.bind, App.on_queue, get_jobs. cbn [fst snd App.world].
  rewrite (for_each_command_returns command argv_of Hcmd)
    by (intros; apply Hrun).
  rewrite trace_after_update_jobs, Hlogin. cbn [App.world trace].
  now rewrite <- app_assoc.
Qed.

(** X20.  When the commands can be spawned, a button on all jobs spawns
    its command once for each job of the snapshot whose id is made of
    digits, in the order of the snapshot, and then the queue query of one
    refresh; nothing else. *)
Theorem all_jobs_buttons_spawn (user : string) (s : App.State) :
  os_getlogin = inr user ->
  (forall a h, run a h = None) ->
  let targets := filter has_digit_id (jobs (App.world s)) in
  trace (App.world (snd (App.handle App.Kill_selected_button s)))
  = trace (App.world s) ++ map scancel_argv targets ++ [squeue_argv user]
  /\ trace (App.world (snd (App.handle App.Hold_selected_button s)))
     = trace (App.world s) ++ map hold_argv targets ++ [squeue_argv user]
  /\ trace (App.world (snd (App.handle App.Release_selected_button s)))
     = trace (App.world s) ++ map release_argv targets
       ++ [squeue_argv user].
Proof.
  intros Hlogin Hrun targets. repeat split.
  - now apply (on_all_jobs_returns kill_job scancel_argv).
  - now apply (on_all_jobs_returns hold_job hold_argv).
  - now apply (on_all_jobs_returns release_job release_argv).
Qed.

(** X21.  [kill_all_jobs] stops at the first [scancel] that raises: the
    jobs after it in the snapshot are not attempted, no refresh is made,
    and the job menu and the snapshot are left as they were. *)
Theorem kill_all_jobs_stops_at_failure
        (before after : list SlurmJob) (job : SlurmJob) (e : exn)
        (s : App.State) :
  jobs (App.world s) = before ++ job :: after ->
  (forall j h,
      In j before -> has_digit_id j = true ->
      run (scancel_argv j) h = None) ->
  has_digit_id job = true ->
  (forall h, run (scancel_argv job) h = Some e) ->
  App.kill_all_jobs s
  = (inl (App.Queue e),
     {| App.settings := App.settings s;
        App.job_display := App.job_display s;
        App.world :=
          {| jobs := jobs (App.world s);
             trace := trace (App.world s)
                      ++ map scancel_argv (filter has_digit_id before)
                      ++ [scancel_argv job] |} |}).
Proof.
  intros Hjobs Hbefore Hjob Hrun.
  unfold App.kill_all_jobs, App.bind, App.on_queue, get_jobs.
  cbn [fst snd App.world App.settings App.job_display].
  rewrite Hjobs at 1.
  rewrite (for_each_command_raises kill_job scancel_argv
             (fun _ => eq_refl) before after job e Hbefore Hjob Hrun).
  reflexivity.
Qed.

(** X22.  When the commands can be spawned, a key on the selected job
    spawns its command on that job if the id of the job is made of digits,
    and then the queue query of one refresh; on the banner row, or any row
    whose id is not made of digits, only the queue query. *)
Theorem key_on_selected_job_spawns
        (job : SlurmJob) (user : string) (s : App.State) :
  os_getlogin = inr user ->
  (forall a h, run a h = None) ->
  trace (App.world (snd (App.handle (App.Key_k (Some job)) s)))
  = trace (App.world s)
    ++ (if has_digit_id job then [scancel_argv job] else [])
    ++ [squeue_argv user]
  /\ trace (App.world (snd (App.handle (App.Key_h (Some job)) s)))
     = trace (App.world s)
       ++ (if has_digit_id job then [hold_argv job] else [])
       ++ [squeue_argv user]
  /\ trace (App.world (snd (App.handle (App.Key_r (Some job)) s)))
     = trace (App.world s)
       ++ (if has_digit_id job then [release_argv job] else [])
       ++ [squeue_argv user].
Proof.
  intros Hlogin Hrun.
  cbn [App.handle].
  unfold App.kill_job, App.hold_job, App.release_job, App.on_selection,
    App.bind, App.on_queue, kill_job, hold_job, release_job.
  fold (has_digit_id job).
  destruct (has_digit_id job); unfold subprocess_run, ret;
    rewrite ?Hrun; cbn [fst snd];
    rewrite !trace_after_update_jobs, Hlogin; cbn [App.world trace app];
    rewrite <- ?app_assoc; repeat split.
Qed.

End Spawned.

Section Queries.

Context {host : Host} {regex_engine : Regex} {object_model : ObjectModel}.

Lemma update_jobs_returns_trace (user : string) (s s' : App.State) :
  os_getlogin = inr user ->
  App.update_jobs s = (inr tt, s') ->
  trace (App.world s') = trace (App.world s) ++ [squeue_argv user].
Proof.
  intros Hlogin H. pose proof (trace_after_update_jobs s) as Ht.
  now rewrite H, Hlogin in Ht.
Qed.

(** X23.  When the handler of Enter in the pattern box returns, the name
    selected in the attribute menu was a key of [NAMES_TO_JOB_ATTRIBUTES],
    the settings hold the attribute of that key and the text of the box,
    and the queue has been queried twice: once with the new attribute and
    the old pattern, once with the new pattern. *)
Theorem set_filter_regex_queries_twice
        (filter_name : option string) (text user : string)
        (s s' : App.State) :
  os_getlogin = inr user ->
  App.handle (App.Enter_in_filter_regex filter_name text) s = (inr tt, s') ->
  (exists key attribute,
      filter_name = Some key
      /\ dict_get key NAMES_TO_JOB_ATTRIBUTES = Some attribute
      /\ App.settings s'
         = {| job_filter_attribute := attribute; job_filter_regex := text |})
  /\ trace (App.world s')
     = trace (App.world s) ++ [squeue_argv user; squeue_argv user].
Proof.
  intros Hlogin. cbn [App.handle]. unfold App.set_filter_regex. intros H.
  apply bind_returns in H as ([] & s1 & Hattr & H).
  apply bind_returns in H as (a1 & s2 & Hget & H).
  apply bind_returns in H as ([] & s3 & Hset & H).
  unfold App.get_settings in Hget. injection Hget as <- <-.
  unfold App.set_settings in Hset. injection Hset as <-.
  unfold App.set_filter_attribute in Hattr.
  destruct filter_name as [key|]; [|discriminate Hattr].
  destruct (dict_get key NAMES_TO_JOB_ATTRIBUTES) as [attribute|] eqn:Hkey;
    [|discriminate Hattr].
  apply bind_returns in Hattr as (a0 & s0 & Hget0 & Hattr).
  apply bind_returns in Hattr as ([] & s00 & Hset0 & Hattr).
  unfold App.get_settings in Hget0. injection Hget0 as <- <-.
  unfold App.set_settings in Hset0. injection Hset0 as <-.
  pose proof (update_jobs_returns_trace user _ _ Hlogin Hattr) as Ht1.
  pose proof (update_jobs_returns_trace user _ _ Hlogin H) as Ht2.
  apply update_jobs_returns in Hattr as [_ Hs1].
  apply update_jobs_returns in H as [_ Hs'].
  cbn [App.settings App.world] in *. split.
  - exists key, attribute. split; [reflexivity|]. split; [exact Hkey|].
    rewrite Hs', Hs1. reflexivity.
  - rewrite Ht2, Ht1, <- app_assoc. reflexivity.
Qed.

Lemma SquidApp_init_spec (w : World) :
  SquidApp_init w
  = match update "" "" {| jobs := []; trace := trace w |} with
    | (inl e, w') => (inl e, w')
    | (inr _, w') =>
        (inr {| job_filter_attribute := "name"; job_filter_regex := "" |},
         w')
    end.
Proof. reflexivity. Qed.

(** X24.  When [main] gets as far as the event loop, the queue has been
    queried twice (once by the constructor of the queue, once to fill the
    menu), the filter settings are the attribute ["name"] with an empty
    pattern, and the menu shows the banner row and the jobs. *)
Theorem main_queries_twice (user : string) (s s' : App.State) :
  os_getlogin = inr user ->
  App.main s = (inr tt, s') ->
  trace (App.world s')
  = trace (App.world s) ++ [squeue_argv user; squeue_argv user]
  /\ App.settings s'
     = {| job_filter_attribute := "name"; job_filter_regex := "" |}
  /\ App.job_display s' = slurm_banner_fake_job :: jobs (App.world s').
Proof.
  intros Hlogin. unfold App.main. intros H.
  apply bind_returns in H as (a & s1 & Hinit & H).
  apply bind_returns in H as ([] & s2 & Hset & H).
  apply bind_returns in H as ([] & s3 & Hclear & H).
  unfold App.set_settings in Hset. injection Hset as <-.
  unfold App.display_clear in Hclear. injection Hclear as <-.
  pose proof (update_jobs_returns_trace user _ _ Hlogin H) as Ht.
  apply update_jobs_returns in H as [Hdisplay Hsettings].
  cbn [App.settings App.world] in *.
  unfold App.on_queue in Hinit. rewrite SquidApp_init_spec in Hinit.
  pose proof (trace_after_update
                "" "" {| jobs := []; trace := trace (App.world s) |}) as Ht0.
  destruct (update "" "" _) as [[e|[]] w0]; [discriminate Hinit|].
  injection Hinit as <- <-.
  rewrite Hlogin in Ht0. cbn [snd trace App.world] in *.
  split; [|split; [exact Hsettings|exact Hdisplay]].
  rewrite Ht, Ht0, <- app_assoc. reflexivity.
Qed.

End Queries.

Lemma all_jobs_buttons_spawn_witness :
  trace (App.world
           (snd (@App.handle (host_answering (inr good_line)) plain_re
                   sample_object_model App.Kill_selected_button
                   {| App.settings := mkSquidApp "name" "";
                      App.job_display := [];
                      App.world :=
                        {| jobs := [slurm_banner_fake_job; good_job;
                                    job_named "7" "x"];
                           trace := [] |} |})))
  = [["scancel"; "123"]; ["scancel"; "7"]; squeue_argv "user"].
Proof.
  exact (proj1 (@all_jobs_buttons_spawn
                  (host_answering (inr good_line)) plain_re
                  sample_object_model "user"
                  {| App.settings := mkSquidApp "name" "";
                     App.job_display := [];
                     App.world :=
                       {| jobs := [slurm_banner_fake_job; good_job;
                                   job_named "7" "x"];
                          trace := [] |} |}
                  eq_refl (fun _ _ => eq_refl))).
Defined.

Lemma kill_all_jobs_stops_at_failure_witness :
  @App.kill_all_jobs (host_without_commands (inr good_line)) plain_re
     sample_object_model
     {| App.settings := mkSquidApp "name" "";
        App.job_display := [slurm_banner_fake_job; good_job];
        App.world :=
          {| jobs := [slurm_banner_fake_job; good_job; job_named "7" "x"];
             trace := [] |} |}
  = (inl (App.Queue OSError),
     {| App.settings := mkSquidApp "name" "";
        App.job_display := [slurm_banner_fake_job; good_job];
        App.world :=
          {| jobs := [slurm_banner_fake_job; good_job; job_named "7" "x"];
             trace := [["scancel"; "123"]] |} |}).
Proof.
  apply (@kill_all_jobs_stops_at_failure
           (host_without_commands (inr good_line)) plain_re
           sample_object_model
           [slurm_banner_fake_job] [job_named "7" "x"] good_job OSError).
  - reflexivity.
  - intros j h [<-|[]] Hdigit. discriminate Hdigit.
  - reflexivity.
  - reflexivity.
Defined.

Lemma key_on_selected_job_spawns_witness :
  trace (App.world
           (snd (@App.handle (host_answering (inr good_line)) plain_re
                   sample_object_model (App.Key_k (Some good_job))
                   {| App.settings := mkSquidApp "name" "";
                      App.job_display := [slurm_banner_fake_job; good_job];
                      App.world := {| jobs := [good_job]; trace := [] |} |})))
  = [["scancel"; "123"]; squeue_argv "user"].
Proof.
  exact (proj1 (@key_on_selected_job_spawns
                  (host_answering (inr good_line)) plain_re
                  sample_object_model good_job "user"
                  {| App.settings := mkSquidApp "name" "";
                     App.job_display := [slurm_banner_fake_job; good_job];
                     App.world := {| jobs := [good_job]; trace := [] |} |}
                  eq_refl (fun _ _ => eq_refl))).
Defined.

Lemma set_filter_regex_queries_twice_witness :
  (exists key attribute,
      Some "State" = Some key
      /\ dict_get key NAMES_TO_JOB_ATTRIBUTES = Some attribute
      /\ mkSquidApp "state" "PD"
         = {| job_filter_attribute := attribute; job_filter_regex := "PD" |})
  /\ [squeue_argv "user"; squeue_argv "user"]
     = [] ++ [squeue_argv "user"; squeue_argv "user"].
Proof.
  exact (@set_filter_regex_queries_twice
           (host_answering (inr good_line)) plain_re sample_object_model
           (Some "State") "PD" "user"
           {| App.settings := mkSquidApp "name" "";
              App.job_display := [];
              App.world := empty_world |}
           {| App.settings := mkSquidApp "state" "PD";
              App.job_display := [slurm_banner_fake_job; good_job];
              App.world :=
                {| jobs := [good_job];
                   trace := [squeue_argv "user"; squeue_argv "user"] |} |}
           eq_refl eq_refl).
Defined.

Lemma main_queries_twice_witness :
  [squeue_argv "user"; squeue_argv "user"]
  = [] ++ [squeue_argv "user"; squeue_argv "user"]
  /\ mkSquidApp "name" ""
     = {| job_filter_attribute := "name"; job_filter_regex := "" |}
  /\ [slurm_banner_fake_job; good_job]
     = slurm_banner_fake_job :: [good_job].
Proof.
  exact (@main_queries_twice
           (host_answering (inr good_line)) plain_re sample_object_model
           "user"
           {| App.settings := mkSquidApp "x" "y";
              App.job_display := [];
              App.world := empty_world |}
           {| App.settings := mkSquidApp "name" "";
              App.job_display := [slurm_banner_fake_job; good_job];
              App.world :=
                {| jobs := [good_job];
                   trace := [squeue_argv "user"; squeue_argv "user"] |} |}
           eq_refl eq_refl).
Defined.
